(** * Growatt server integration: time, number and button platforms

    A shallow embedding of [custom_components/growatt_server/time.py],
    [number.py] and [button.py], and the properties of the schedule
    entities and of the apply-settings button.

    Conventions.
    - A Python [str] is a [string]; a character stands for the code point
      of the same number (code points below 256).
    - A Python [int] is a [Z]; a Python [float] is a [spec_float]
      (IEEE 754 binary64 data, no rounding is ever performed here: the
      code only truncates floats to integers).
    - A Python exception is a value of [exn]; code that may raise returns
      a [result].
    - The coordinator's mutable [data] dict is a [gmap string Value];
      effects on the host and on the vendor cloud are recorded, in
      order, in a trace of [Event]s. *)

From Stdlib Require Import ZArith NArith Lia Bool Ascii String List.
From Stdlib Require Import Floats.SpecFloat.
From stdpp Require Import base option list gmap strings.

Local Open Scope Z_scope.

(** ** Python builtins used by the three platforms *)

Module Py.

(** Exceptions that the modelled code can raise or let through. The
    [cause] of a [HomeAssistantError] is what [raise ... from err] records. *)
#[warnings="-register-all"] Inductive exn : Type :=
| ValueError
| IndexError
| KeyError (key : string)
| AttributeError
| TypeError
| OverflowError
| GrowattV1ApiError (message : string)
| OtherException (name : string)
| HomeAssistantError (msg : string) (cause : option exn).

Inductive result (A : Type) : Type :=
| Ok (a : A)
| Raise (e : exn).
Arguments Ok {A} a.
Arguments Raise {A} e.

Definition rbind {A B} (r : result A) (k : A -> result B) : result B :=
  match r with
  | Ok a => k a
  | Raise e => Raise e
  end.

Definition rmap {A B} (f : A -> B) (r : result A) : result B :=
  rbind r (fun a => Ok (f a)).

(** [try: body  except (ValueError, IndexError): handler] *)
Definition try_except_value_index {A} (body : result A) (handler : result A)
  : result A :=
  match body with
  | Raise ValueError | Raise IndexError => handler
  | other => other
  end.

(** [str(err)] for the exceptions whose text the code formats. *)
Definition str_exn (e : exn) : string :=
  match e with
  | GrowattV1ApiError message => message
  | HomeAssistantError msg _ => msg
  | KeyError key => "'" +:+ key +:+ "'"
  | OtherException name => name
  | _ => ""
  end.

(** *** Strings *)

(** [s.split(sep)] for a one-character separator. *)
Fixpoint split_on (sep : ascii) (s : string) : list string :=
  match s with
  | EmptyString => [EmptyString]
  | String c s' =>
      if Ascii.eqb c sep then EmptyString :: split_on sep s'
      else match split_on sep s' with
           | [] => [String c EmptyString]
           | p :: ps => String c p :: ps
           end
  end.

(** [l[i]] for a non-negative literal index. *)
Definition getitem {A} (l : list A) (i : nat) : result A :=
  match l !! i with
  | Some x => Ok x
  | None => Raise IndexError
  end.

(** [s.endswith(suffix)] *)
Definition endswith (s suffix : string) : bool :=
  let n := String.length s in
  let m := String.length suffix in
  (m <=? n)%nat && String.eqb (substring (n - m) m s) suffix.

(** [needle in hay] *)
Fixpoint contains (needle hay : string) : bool :=
  String.prefix needle hay ||
  match hay with
  | EmptyString => false
  | String _ hay' => contains needle hay'
  end.

(** [sep.join(l)] *)
Definition join (sep : string) (l : list string) : string :=
  String.concat sep l.

(** *** Integers and their text *)

Definition digit_char (d : N) : ascii := ascii_of_N (48 + d).

Fixpoint dec_digits (fuel : nat) (n : N) (acc : string) : string :=
  match fuel with
  | O => acc
  | S fuel' =>
      let acc' := String (digit_char (n mod 10)) acc in
      if (n / 10 =? 0)%N then acc' else dec_digits fuel' (n / 10)%N acc'
  end.

(** [str(n)] for an [int]. *)
Definition str_int (z : Z) : string :=
  let n := Z.abs_N z in
  let ds := dec_digits (S (N.to_nat (N.log2 n))) n EmptyString in
  if z <? 0 then String "-" ds else ds.

(** [f"{n:02d}"] and ["%02d" % n]: width 2, zero padded, the sign counts. *)
Definition fmt_02d (z : Z) : string :=
  if (0 <=? z) && (z <? 10) then String "0" (str_int z) else str_int z.

(** [str(b)] for a [bool]. *)
Definition str_bool (b : bool) : string := if b then "True" else "False".

(** White space skipped by [int(str)]: the ASCII set [Py_ISSPACE] accepts
    and the Unicode spaces above 127 (NEL and NBSP below 256). *)
Definition is_space (c : ascii) : bool :=
  let n := N_of_ascii c in
  ((9 <=? n) && (n <=? 13) || (n =? 32) || (n =? 133) || (n =? 160))%N.

Definition digit_val (c : ascii) : option Z :=
  let n := N_of_ascii c in
  if ((48 <=? n) && (n <=? 57))%N then Some (Z.of_N (n - 48)) else None.

Fixpoint lstrip (s : string) : string :=
  match s with
  | EmptyString => EmptyString
  | String c s' => if is_space c then lstrip s' else s
  end.

(** Decimal digits with single underscores between digits. Returns the
    value, the number of digits and the unread rest. *)
Fixpoint scan_digits (prev_digit : bool) (acc : Z) (n : nat) (s : string)
  : option (Z * nat * string) :=
  match s with
  | EmptyString => if prev_digit then Some (acc, n, EmptyString) else None
  | String c s' =>
      match digit_val c with
      | Some d => scan_digits true (10 * acc + d) (S n) s'
      | None =>
          if Ascii.eqb c "_"
          then (if prev_digit then scan_digits false acc n s' else None)
          else (if prev_digit then Some (acc, n, s) else None)
      end
  end.

(** [sys.get_int_max_str_digits()], at its default. *)
Definition int_max_str_digits : nat := 4300.

(** [int(s)] for a [str], base 10. *)
Definition int_of_str (s : string) : result Z :=
  let s1 := lstrip s in
  let '(neg, s2) :=
    match s1 with
    | String "-" r => (true, r)
    | String "+" r => (false, r)
    | _ => (false, s1)
    end in
  match scan_digits false 0 0 s2 with
  | Some (v, n, rest) =>
      if String.eqb (lstrip rest) EmptyString && (n <=? int_max_str_digits)%nat
      then Ok (if neg then - v else v)
      else Raise ValueError
  | None => Raise ValueError
  end.

(** [int(f)] for a [float]: truncation toward zero. *)
Definition int_of_float (f : spec_float) : result Z :=
  match f with
  | S754_zero _ => Ok 0
  | S754_infinity _ => Raise OverflowError
  | S754_nan => Raise ValueError
  | S754_finite s m e =>
      let a := if 0 <=? e then Z.pos m * 2 ^ e else Z.pos m / 2 ^ (- e) in
      Ok (if s then - a else a)
  end.

(** *** [datetime.time] *)

(** Naive times only: [tzinfo] and [fold] are never set by this code. *)
Record time : Type := mk_time {
  hour : Z;
  minute : Z;
  second : Z;
  microsecond : Z
}.

(** A time object as the runtime can hold it. *)
Definition wf_time (t : time) : Prop :=
  0 <= hour t <= 23 /\ 0 <= minute t <= 59 /\
  0 <= second t <= 59 /\ 0 <= microsecond t <= 999999.

Definition fits_c_int (z : Z) : bool := (- 2 ^ 31 <=? z) && (z <? 2 ^ 31).

(** [time(hour=h, minute=m)]. CPython converts each argument to a C [int]
    first ([OverflowError] when it does not fit) and then checks the
    ranges ([ValueError]). *)
Definition new_time (h m : Z) : result time :=
  if negb (fits_c_int h && fits_c_int m) then Raise OverflowError
  else if negb ((0 <=? h) && (h <=? 23)) then Raise ValueError
  else if negb ((0 <=? m) && (m <=? 59)) then Raise ValueError
  else Ok (mk_time h m 0 0).

(** Lookup in a literal dict, given as its items. *)
Fixpoint assoc (key : string) (d : list (string * string)) : option string :=
  match d with
  | [] => None
  | (k, v) :: d' => if String.eqb k key then Some v else assoc key d'
  end.

(** *** [str.format] with keyword arguments

    Replacement fields [{name}] only: the templates of this code use no
    conversion, no format spec and no doubled brace. *)
Fixpoint format_kw (kw : list (string * string)) (field : option string)
  (s : string) : result string :=
  match s with
  | EmptyString =>
      match field with
      | None => Ok EmptyString
      | Some _ => Raise ValueError
      end
  | String c s' =>
      match field with
      | None =>
          if Ascii.eqb c "{" then format_kw kw (Some EmptyString) s'
          else if Ascii.eqb c "}" then Raise ValueError
          else rmap (String c) (format_kw kw None s')
      | Some name =>
          if Ascii.eqb c "}" then
            match assoc name kw with
            | Some v => rmap (String.append v) (format_kw kw None s')
            | None => Raise (KeyError name)
            end
          else format_kw kw (Some (name +:+ String c EmptyString)) s'
      end
  end.

(** *** Values held in the coordinator's [data] dict *)

Inductive Value : Type :=
| VNone
| VBool (b : bool)
| VInt (n : Z)
| VFloat (f : spec_float)
| VStr (s : string).

(** [int(v)] *)
Definition int_of (v : Value) : result Z :=
  match v with
  | VNone => Raise TypeError
  | VBool b => Ok (if b then 1 else 0)
  | VInt n => Ok n
  | VFloat f => int_of_float f
  | VStr s => int_of_str s
  end.

(** [v.split(sep)]: only [str] has the method. *)
Definition split_value (v : Value) (sep : ascii) : result (list string) :=
  match v with
  | VStr s => Ok (split_on sep s)
  | _ => Raise AttributeError
  end.

(** [d[key]] on a literal dict. *)
Definition dict_getitem (d : list (string * string)) (key : string)
  : result string :=
  match assoc key d with
  | Some v => Ok v
  | None => Raise (KeyError key)
  end.

End Py.
Export Py.

Notation "x <- r ;; k" := (rbind r (fun x => k))
  (at level 100, r at next level, right associativity, only parsing).

(** ** The coordinator (host object shared by the entities of a device) *)

(** What [isinstance(coordinator.api, OpenApiV1)] can tell apart. *)
Inductive ApiClient : Type :=
| OpenApiV1
| ClassicApi.

Record GrowattCoordinator : Type := {
  device_id : string;
  device_type : string;
  api_version : string;
  api : ApiClient
}.

(** *** Vendor SDK records and calls *)

Inductive DeviceType : Type :=
| MIN_TLX
| SPH_MIX.

Record ChargeDischargeParams : Type := {
  cd_charge_power : Z;
  cd_charge_stop_soc : Z;
  cd_discharge_power : Z;
  cd_discharge_stop_soc : Z;
  cd_ac_charge_enabled : bool
}.

Record MixAcChargeTimeParams : Type := {
  mc_charge_power : Z;
  mc_charge_stop_soc : Z;
  mc_mains_enabled : bool;
  mc_start_hour : Z;
  mc_start_minute : Z;
  mc_end_hour : Z;
  mc_end_minute : Z;
  mc_enabled : bool;
  mc_segment_id : Z
}.

Record MixAcDischargeTimeParams : Type := {
  md_discharge_power : Z;
  md_discharge_stop_soc : Z;
  md_start_hour : Z;
  md_start_minute : Z;
  md_end_hour : Z;
  md_end_minute : Z;
  md_enabled : bool;
  md_segment_id : Z
}.

Inductive TimeSegmentParams : Type :=
| ChargeSegment (p : MixAcChargeTimeParams)
| DischargeSegment (p : MixAcDischargeTimeParams).

(** A blocking call into the vendor SDK, with its positional arguments. *)
Inductive VendorCall : Type :=
| write_parameter (device : string) (dt : DeviceType) (parameter_id : string)
    (params : ChargeDischargeParams)
| write_time_segment (device : string) (dt : DeviceType) (segment : string)
    (params : TimeSegmentParams).

Inductive LogLevel : Type :=
| LogInfo
| LogError
| LogException.

(** Observable effects, in the order the code performs them. A vendor
    call carries its outcome: [None] when it returned, [Some e] when it
    raised [e]. *)
Inductive Event : Type :=
| EvVendor (call : VendorCall) (outcome : option exn)
| EvRequestRefresh
| EvWriteHaState
| EvLog (level : LogLevel) (msg : string).

(** The mutable part: the coordinator's [data] dict and the trace. *)
Record World : Type := {
  data : gmap string Value;
  trace : list Event
}.

Definition set_item (key : string) (v : Value) (w : World) : World :=
  {| data := <[key := v]> (data w); trace := trace w |}.

Definition emit (ev : Event) (w : World) : World :=
  {| data := data w; trace := trace w ++ [ev] |}.

(** [d.get(key, default)] *)
Definition dict_get (d : gmap string Value) (key : string) (default : Value)
  : Value :=
  match d !! key with
  | Some v => v
  | None => default
  end.

(** ** time.py *)

Module TimePlatform.

Definition MIN_TLX_FIELD_TEMPLATES : list (string * string) :=
  [ ("start_time", "timeSegmentStart{segment_id}");
    ("stop_time", "timeSegmentStop{segment_id}");
    ("enabled", "timeSegmentEnabled{segment_id}") ].

Definition SPH_MIX_CHARGE_FIELD_TEMPLATES : list (string * string) :=
  [ ("start_time", "forcedChargeTimeStart{segment_id}");
    ("stop_time", "forcedChargeTimeStop{segment_id}");
    ("enabled", "forcedChargeStopSwitch{segment_id}") ].

Definition SPH_MIX_DISCHARGE_FIELD_TEMPLATES : list (string * string) :=
  [ ("start_time", "forcedDischargeTimeStart{segment_id}");
    ("stop_time", "forcedDischargeTimeStop{segment_id}");
    ("enabled", "forcedDischargeStopSwitch{segment_id}") ].

(** The four entity classes of the module. *)
Inductive TimeEntityClass : Type :=
| GrowattChargeStartTimeEntity
| GrowattChargeEndTimeEntity
| GrowattDischargeStartTimeEntity
| GrowattDischargeEndTimeEntity.

(** [_attr_translation_key], also the infix of [_attr_unique_id]. *)
Definition translation_key (k : TimeEntityClass) : string :=
  match k with
  | GrowattChargeStartTimeEntity => "charge_start_time"
  | GrowattChargeEndTimeEntity => "charge_end_time"
  | GrowattDischargeStartTimeEntity => "discharge_start_time"
  | GrowattDischargeEndTimeEntity => "discharge_end_time"
  end.

(** The template table of the [else] branch of [_get_field_name]. *)
Definition mix_templates (k : TimeEntityClass) : list (string * string) :=
  match k with
  | GrowattChargeStartTimeEntity | GrowattChargeEndTimeEntity =>
      SPH_MIX_CHARGE_FIELD_TEMPLATES
  | GrowattDischargeStartTimeEntity | GrowattDischargeEndTimeEntity =>
      SPH_MIX_DISCHARGE_FIELD_TEMPLATES
  end.

(** The field type that [native_value] and [async_set_value] pass to
    [_get_field_name]. *)
Definition own_field (k : TimeEntityClass) : string :=
  match k with
  | GrowattChargeStartTimeEntity | GrowattDischargeStartTimeEntity =>
      "start_time"
  | GrowattChargeEndTimeEntity | GrowattDischargeEndTimeEntity =>
      "stop_time"
  end.

(** The default that [native_value] passes to [data.get]. *)
Definition get_default (k : TimeEntityClass) : string :=
  match k with
  | GrowattChargeStartTimeEntity => "14:00"
  | GrowattChargeEndTimeEntity => "16:00"
  | GrowattDischargeStartTimeEntity | GrowattDischargeEndTimeEntity => "00:00"
  end.

(** The time returned by the [except] branch of [native_value]. *)
Definition fallback (k : TimeEntityClass) : time :=
  match k with
  | GrowattChargeStartTimeEntity => mk_time 14 0 0 0
  | GrowattChargeEndTimeEntity => mk_time 16 0 0 0
  | GrowattDischargeStartTimeEntity | GrowattDischargeEndTimeEntity =>
      mk_time 0 0 0 0
  end.

(** An instance: [self.coordinator] and [self._segment_id]. *)
Record TimeEntity : Type := {
  cls : TimeEntityClass;
  coordinator : GrowattCoordinator;
  _segment_id : Z
}.

Definition unique_id (self : TimeEntity) : string :=
  device_id (coordinator self) +:+ "_" +:+ translation_key (cls self)
  +:+ "_" +:+ str_int (_segment_id self).

Definition _get_field_name (self : TimeEntity) (field_type : string)
  : result string :=
  template <-
    (if String.eqb (device_type (coordinator self)) "tlx"
     then dict_getitem MIN_TLX_FIELD_TEMPLATES field_type
     else dict_getitem (mix_templates (cls self)) field_type) ;;
  format_kw [("segment_id", str_int (_segment_id self))] None template.

Definition native_value (self : TimeEntity) (d : gmap string Value)
  : result time :=
  field <- _get_field_name self (own_field (cls self)) ;;
  let time_str := dict_get d field (VStr (get_default (cls self))) in
  try_except_value_index
    (parts <- split_value time_str ":" ;;
     p0 <- getitem parts 0 ;;
     h <- int_of_str p0 ;;
     p1 <- getitem parts 1 ;;
     m <- int_of_str p1 ;;
     new_time h m)
    (Ok (fallback (cls self))).

Definition async_set_value (self : TimeEntity) (value : time) (w : World)
  : result unit * World :=
  match _get_field_name self (own_field (cls self)) with
  | Raise e => (Raise e, w)
  | Ok field =>
      let time_str := fmt_02d (hour value) +:+ ":" +:+ fmt_02d (minute value) in
      (Ok tt, emit EvWriteHaState (set_item field (VStr time_str) w))
  end.

(** [async_setup_entry]: the entities handed to [async_add_entities], for
    the coordinators of [runtime_data.devices.values()]. *)
Definition async_setup_entry (devices : list GrowattCoordinator)
  : list TimeEntity :=
  fold_left
    (fun entities device_coordinator =>
       if String.eqb (api_version device_coordinator) "v1" then
         if String.eqb (device_type device_coordinator) "mix" then
           entities ++
           [ {| cls := GrowattChargeStartTimeEntity;
                coordinator := device_coordinator; _segment_id := 1 |};
             {| cls := GrowattChargeEndTimeEntity;
                coordinator := device_coordinator; _segment_id := 1 |};
             {| cls := GrowattDischargeStartTimeEntity;
                coordinator := device_coordinator; _segment_id := 1 |};
             {| cls := GrowattDischargeEndTimeEntity;
                coordinator := device_coordinator; _segment_id := 1 |} ]
         else if String.eqb (device_type device_coordinator) "tlx" then
           entities ++
           [ {| cls := GrowattChargeStartTimeEntity;
                coordinator := device_coordinator; _segment_id := 1 |};
             {| cls := GrowattChargeEndTimeEntity;
                coordinator := device_coordinator; _segment_id := 1 |};
             {| cls := GrowattDischargeStartTimeEntity;
                coordinator := device_coordinator; _segment_id := 1 |};
             {| cls := GrowattDischargeEndTimeEntity;
                coordinator := device_coordinator; _segment_id := 1 |} ]
         else entities
       else entities)
    devices [].

End TimePlatform.

(** ** number.py *)

Module NumberPlatform.

Record GrowattNumberEntityDescription : Type := {
  key : string;
  api_key : string;
  write_key : option string;
  native_step : Z;
  native_min_value : Z;
  native_max_value : Z
}.

Definition percent_setting (k api w : string) : GrowattNumberEntityDescription :=
  {| key := k; api_key := api; write_key := Some w;
     native_step := 1; native_min_value := 0; native_max_value := 100 |}.

Definition MIN_NUMBER_TYPES : list GrowattNumberEntityDescription :=
  [ percent_setting "charge_power" "chargePowerCommand" "charge_power";
    percent_setting "charge_stop_soc" "wchargeSOCLowLimit" "charge_stop_soc";
    percent_setting "discharge_power" "disChargePowerCommand" "discharge_power";
    percent_setting "discharge_stop_soc" "wdisChargeSOCLowLimit"
      "discharge_stop_soc" ].

Definition MIX_NUMBER_TYPES : list GrowattNumberEntityDescription :=
  [ percent_setting "charge_power" "chargePowerCommand" "charge_power";
    percent_setting "charge_stop_soc" "wchargeSOCLowLimit1" "charge_stop_soc";
    percent_setting "discharge_power" "disChargePowerCommand" "discharge_power";
    percent_setting "discharge_stop_soc" "loadFirstStopSocSet"
      "discharge_stop_soc" ].

Record GrowattNumber : Type := {
  coordinator : GrowattCoordinator;
  entity_description : GrowattNumberEntityDescription
}.

Definition unique_id (self : GrowattNumber) : string :=
  device_id (coordinator self) +:+ "_" +:+ key (entity_description self).

Definition async_set_native_value (self : GrowattNumber) (value : spec_float)
  (w : World) : result unit * World :=
  match int_of_float value with
  | Raise e => (Raise e, w)
  | Ok int_value =>
      (Ok tt,
       emit EvWriteHaState
         (set_item (api_key (entity_description self)) (VInt int_value) w))
  end.

(** [async_setup_entry]: the numbers handed to [async_add_entities]. *)
Definition async_setup_entry (devices : list GrowattCoordinator)
  : list GrowattNumber :=
  fold_left
    (fun entities device_coordinator =>
       if String.eqb (api_version device_coordinator) "v1" then
         let number_types :=
           if String.eqb (device_type device_coordinator) "tlx"
           then MIN_NUMBER_TYPES else MIX_NUMBER_TYPES in
         entities ++
         map (fun description =>
                {| coordinator := device_coordinator;
                   entity_description := description |})
           number_types
       else entities)
    devices [].

End NumberPlatform.

(** ** button.py *)

Module ButtonPlatform.

(** *** The host: entity registry and state machine *)

Record RegistryEntry : Type := {
  platform : string;
  unique_id : string;
  entity_id : string
}.

Record State : Type := {
  state : string
}.

(** [entity_reg.entities.values()], in iteration order, and
    [hass.states]. *)
Record HomeAssistant : Type := {
  entities : list RegistryEntry;
  states : gmap string State
}.

Record GrowattApplySettingsButton : Type := {
  hass : HomeAssistant;
  coordinator : GrowattCoordinator;
  _setting_type : string
}.

(** *** Effects *)

Definition M (A : Type) : Type := World -> result A * World.

Definition ret {A} (a : A) : M A := fun w => (Ok a, w).

Definition bind {A B} (m : M A) (k : A -> M B) : M B :=
  fun w =>
    match m w with
    | (Ok a, w') => k a w'
    | (Raise e, w') => (Raise e, w')
    end.

Definition raise {A} (e : exn) : M A := fun w => (Raise e, w).

Definition lift {A} (r : result A) : M A := fun w => (r, w).

Definition log (level : LogLevel) (msg : string) : M unit :=
  fun w => (Ok tt, emit (EvLog level msg) w).

Definition coordinator_data : M (gmap string Value) :=
  fun w => (Ok (data w), w).

Definition async_request_refresh : M unit :=
  fun w => (Ok tt, emit EvRequestRefresh w).

Notation "x <-- m ;;; k" := (bind m (fun x => k))
  (at level 100, m at next level, right associativity, only parsing).
Notation "m ;;; k" := (bind m (fun _ => k))
  (at level 100, right associativity, only parsing).

(** The state objects of the sibling entities, as the registry loop
    leaves them ([None] where nothing was found). *)
Record Siblings : Type := {
  power_entity : option State;
  stop_soc_entity : option State;
  start_entity : option State;
  end_entity : option State;
  enabled_entity : option State
}.

Definition no_siblings : Siblings :=
  {| power_entity := None; stop_soc_entity := None; start_entity := None;
     end_entity := None; enabled_entity := None |}.

(** Truth value of [hass.states.get(...)]: a [State] object is true. *)
Definition truthy (e : option State) : bool :=
  match e with
  | Some _ => true
  | None => false
  end.

(** [e.state]; on [None] the attribute access fails. *)
Definition state_of (e : option State) : result string :=
  match e with
  | Some s => Ok (state s)
  | None => Raise AttributeError
  end.

(** One iteration of the registry loop. [kind] is the word the five
    suffixes are built from: ["charge"] in [_apply_charge_settings],
    ["discharge"] in [_apply_discharge_settings]. *)
Definition visit_entity (h : HomeAssistant) (device : string) (kind : string)
  (found : Siblings) (entity : RegistryEntry) : Siblings :=
  if String.eqb (platform entity) "growatt_server"
     && contains device (unique_id entity)
  then
    let st := states h !! entity_id entity in
    if endswith (unique_id entity) ("_" +:+ kind +:+ "_power") then
      {| power_entity := st; stop_soc_entity := stop_soc_entity found;
         start_entity := start_entity found; end_entity := end_entity found;
         enabled_entity := enabled_entity found |}
    else if endswith (unique_id entity) ("_" +:+ kind +:+ "_stop_soc") then
      {| power_entity := power_entity found; stop_soc_entity := st;
         start_entity := start_entity found; end_entity := end_entity found;
         enabled_entity := enabled_entity found |}
    else if endswith (unique_id entity) ("_" +:+ kind +:+ "_start_time_1") then
      {| power_entity := power_entity found;
         stop_soc_entity := stop_soc_entity found;
         start_entity := st; end_entity := end_entity found;
         enabled_entity := enabled_entity found |}
    else if endswith (unique_id entity) ("_" +:+ kind +:+ "_end_time_1") then
      {| power_entity := power_entity found;
         stop_soc_entity := stop_soc_entity found;
         start_entity := start_entity found; end_entity := st;
         enabled_entity := enabled_entity found |}
    else if endswith (unique_id entity) ("_" +:+ kind +:+ "_period_1_enabled")
    then
      {| power_entity := power_entity found;
         stop_soc_entity := stop_soc_entity found;
         start_entity := start_entity found; end_entity := end_entity found;
         enabled_entity := st |}
    else found
  else found.

Definition find_siblings (h : HomeAssistant) (device : string) (kind : string)
  : Siblings :=
  fold_left (visit_entity h device kind) (entities h) no_siblings.

(** [if not e: missing.append(ident)] *)
Definition append_if_missing (e : option State) (ident : string)
  (missing : list string) : list string :=
  if truthy e then missing else missing ++ [ident].

Definition missing_message (kind : string) (missing : list string) : string :=
  "Could not find all " +:+ kind +:+ " setting entities. Missing: "
  +:+ join ", " missing.

Definition tlx_missing (device kind : string) (f : Siblings) : list string :=
  let missing := [] in
  let missing :=
    append_if_missing (power_entity f)
      ("number." +:+ device +:+ "_" +:+ kind +:+ "_power") missing in
  let missing :=
    append_if_missing (stop_soc_entity f)
      ("number." +:+ device +:+ "_" +:+ kind +:+ "_stop_soc") missing in
  missing.

Definition mix_missing (device kind : string) (f : Siblings) : list string :=
  let missing := [] in
  let missing :=
    append_if_missing (start_entity f)
      ("time." +:+ device +:+ "_" +:+ kind +:+ "_start_time") missing in
  let missing :=
    append_if_missing (end_entity f)
      ("time." +:+ device +:+ "_" +:+ kind +:+ "_end_time") missing in
  let missing :=
    append_if_missing (enabled_entity f)
      ("switch." +:+ device +:+ "_" +:+ kind +:+ "_period_1_enabled")
      missing in
  let missing :=
    append_if_missing (power_entity f)
      ("number." +:+ device +:+ "_" +:+ kind +:+ "_power") missing in
  let missing :=
    append_if_missing (stop_soc_entity f)
      ("number." +:+ device +:+ "_" +:+ kind +:+ "_stop_soc") missing in
  missing.

(** The [if not all([...])] block: log the message and raise. *)
Definition require_all (present : list (option State)) (kind : string)
  (missing : list string) : M unit :=
  if negb (forallb truthy present) then
    let msg := missing_message kind missing in
    log LogError msg ;;;
    raise (HomeAssistantError msg None)
  else ret tt.

Definition vendor_device_type (c : GrowattCoordinator) : DeviceType :=
  if String.eqb (device_type c) "tlx" then MIN_TLX else SPH_MIX.

(** *** Reading a trace *)

Definition vendor_events (tr : list Event) : list (VendorCall * option exn) :=
  omap (fun ev =>
          match ev with
          | EvVendor call outcome => Some (call, outcome)
          | _ => None
          end) tr.

(** The writes that the vendor accepted. *)
Definition applied_writes (tr : list Event) : list VendorCall :=
  omap (fun ev =>
          match ev with
          | EvVendor call None => Some call
          | _ => None
          end) tr.

Definition is_refresh (ev : Event) : bool :=
  match ev with
  | EvRequestRefresh => true
  | _ => false
  end.

Definition refresh_count (tr : list Event) : nat :=
  length (List.filter is_refresh tr).

Section Button.

(** Runtime services the module calls and does not define:
    [float(s)] and [datetime.time.fromisoformat(s)] on a [str] ([None]
    when they raise [ValueError]), and the vendor cloud, which decides
    the outcome of a call from the calls it has seen before. *)
Variable float_of_str : string -> option spec_float.
Variable time_fromisoformat : string -> option time.
Variable vendor : list (VendorCall * option exn) -> VendorCall -> option exn.

Definition or_value_error {A} (o : option A) : result A :=
  match o with
  | Some a => Ok a
  | None => Raise ValueError
  end.

(** [int(float(e.state))] *)
Definition int_float_state (e : option State) : result Z :=
  s <- state_of e ;;
  f <- or_value_error (float_of_str s) ;;
  int_of_float f.

(** [dt_time.fromisoformat(e.state)] *)
Definition time_state (e : option State) : result time :=
  s <- state_of e ;;
  or_value_error (time_fromisoformat s).

(** [e.state == "on"] *)
Definition on_state (e : option State) : result bool :=
  s <- state_of e ;;
  Ok (String.eqb s "on").

(** [await self.hass.async_add_executor_job(fn, *args)]: the blocking
    vendor call runs to its end; what it raises is raised here. *)
Definition async_add_executor_job (call : VendorCall) : M unit :=
  fun w =>
    let outcome := vendor (vendor_events (trace w)) call in
    let w' := emit (EvVendor call outcome) w in
    match outcome with
    | None => (Ok tt, w')
    | Some e => (Raise e, w')
    end.

Definition _apply_charge_settings (self : GrowattApplySettingsButton)
  : M unit :=
  let c := coordinator self in
  let f := find_siblings (hass self) (device_id c) "charge" in
  let dt := vendor_device_type c in
  match api c with
  | OpenApiV1 =>
      if String.eqb (device_type c) "tlx" then
        require_all [power_entity f; stop_soc_entity f] "charge"
          (tlx_missing (device_id c) "charge" f) ;;;
        charge_power <-- lift (int_float_state (power_entity f)) ;;;
        charge_stop_soc <-- lift (int_float_state (stop_soc_entity f)) ;;;
        log LogInfo
          ("Applying TLX charge settings: power=" +:+ str_int charge_power
           +:+ ", soc=" +:+ str_int charge_stop_soc) ;;;
        let params_power :=
          {| cd_charge_power := charge_power; cd_charge_stop_soc := 0;
             cd_discharge_power := 0; cd_discharge_stop_soc := 0;
             cd_ac_charge_enabled := false |} in
        async_add_executor_job
          (write_parameter (device_id c) dt "charge_power" params_power) ;;;
        let params_soc :=
          {| cd_charge_power := 0; cd_charge_stop_soc := charge_stop_soc;
             cd_discharge_power := 0; cd_discharge_stop_soc := 0;
             cd_ac_charge_enabled := false |} in
        async_add_executor_job
          (write_parameter (device_id c) dt "charge_stop_soc" params_soc)
      else
        require_all
          [start_entity f; end_entity f; enabled_entity f; power_entity f;
           stop_soc_entity f] "charge"
          (mix_missing (device_id c) "charge" f) ;;;
        start_time <-- lift (time_state (start_entity f)) ;;;
        end_time <-- lift (time_state (end_entity f)) ;;;
        enabled <-- lift (on_state (enabled_entity f)) ;;;
        charge_power <-- lift (int_float_state (power_entity f)) ;;;
        charge_stop_soc <-- lift (int_float_state (stop_soc_entity f)) ;;;
        d <-- coordinator_data ;;;
        ac <-- lift (int_of (dict_get d "acChargeEnable" (VInt 0))) ;;;
        let mains_enabled := negb (ac =? 0) in
        let params :=
          {| mc_charge_power := charge_power;
             mc_charge_stop_soc := charge_stop_soc;
             mc_mains_enabled := mains_enabled;
             mc_start_hour := hour start_time;
             mc_start_minute := minute start_time;
             mc_end_hour := hour end_time;
             mc_end_minute := minute end_time;
             mc_enabled := enabled;
             mc_segment_id := 1 |} in
        log LogInfo
          ("Applying MIX charge settings: power=" +:+ str_int charge_power
           +:+ ", soc=" +:+ str_int charge_stop_soc
           +:+ ", mains=" +:+ str_bool mains_enabled
           +:+ ", times=" +:+ fmt_02d (hour start_time)
           +:+ ":" +:+ fmt_02d (minute start_time)
           +:+ "-" +:+ fmt_02d (hour end_time)
           +:+ ":" +:+ fmt_02d (minute end_time)
           +:+ ", enabled=" +:+ str_bool enabled) ;;;
        async_add_executor_job
          (write_time_segment (device_id c) dt "mix_ac_charge_time_period"
             (ChargeSegment params))
  | ClassicApi => ret tt
  end.

Definition _apply_discharge_settings (self : GrowattApplySettingsButton)
  : M unit :=
  let c := coordinator self in
  let f := find_siblings (hass self) (device_id c) "discharge" in
  let dt := vendor_device_type c in
  match api c with
  | OpenApiV1 =>
      if String.eqb (device_type c) "tlx" then
        require_all [power_entity f; stop_soc_entity f] "discharge"
          (tlx_missing (device_id c) "discharge" f) ;;;
        discharge_power <-- lift (int_float_state (power_entity f)) ;;;
        discharge_stop_soc <-- lift (int_float_state (stop_soc_entity f)) ;;;
        log LogInfo
          ("Applying TLX discharge settings: power="
           +:+ str_int discharge_power
           +:+ ", soc=" +:+ str_int discharge_stop_soc) ;;;
        let params_power :=
          {| cd_charge_power := 0; cd_charge_stop_soc := 0;
             cd_discharge_power := discharge_power;
             cd_discharge_stop_soc := 0;
             cd_ac_charge_enabled := false |} in
        async_add_executor_job
          (write_parameter (device_id c) dt "discharge_power" params_power) ;;;
        let params_soc :=
          {| cd_charge_power := 0; cd_charge_stop_soc := 0;
             cd_discharge_power := 0;
             cd_discharge_stop_soc := discharge_stop_soc;
             cd_ac_charge_enabled := false |} in
        async_add_executor_job
          (write_parameter (device_id c) dt "discharge_stop_soc" params_soc)
      else
        require_all
          [start_entity f; end_entity f; enabled_entity f; power_entity f;
           stop_soc_entity f] "discharge"
          (mix_missing (device_id c) "discharge" f) ;;;
        start_time <-- lift (time_state (start_entity f)) ;;;
        end_time <-- lift (time_state (end_entity f)) ;;;
        enabled <-- lift (on_state (enabled_entity f)) ;;;
        discharge_power <-- lift (int_float_state (power_entity f)) ;;;
        discharge_stop_soc <-- lift (int_float_state (stop_soc_entity f)) ;;;
        let params :=
          {| md_discharge_power := discharge_power;
             md_discharge_stop_soc := discharge_stop_soc;
             md_start_hour := hour start_time;
             md_start_minute := minute start_time;
             md_end_hour := hour end_time;
             md_end_minute := minute end_time;
             md_enabled := enabled;
             md_segment_id := 1 |} in
        log LogInfo
          ("Applying MIX discharge settings: power="
           +:+ str_int discharge_power
           +:+ ", soc=" +:+ str_int discharge_stop_soc
           +:+ ", times=" +:+ fmt_02d (hour start_time)
           +:+ ":" +:+ fmt_02d (minute start_time)
           +:+ "-" +:+ fmt_02d (hour end_time)
           +:+ ":" +:+ fmt_02d (minute end_time)
           +:+ ", enabled=" +:+ str_bool enabled) ;;;
        async_add_executor_job
          (write_time_segment (device_id c) dt "mix_ac_discharge_time_period"
             (DischargeSegment params))
  | ClassicApi => ret tt
  end.

(** The [if]/[else] of [async_press]. *)
Definition apply_settings (self : GrowattApplySettingsButton) : M unit :=
  if String.eqb (_setting_type self) "charge"
  then _apply_charge_settings self
  else _apply_discharge_settings self.

(** The [try] block of [async_press]. *)
Definition press_body (self : GrowattApplySettingsButton) : M unit :=
  apply_settings self ;;;
  async_request_refresh.

Definition async_press (self : GrowattApplySettingsButton) : M unit :=
  fun w =>
    match press_body self w with
    | (Raise (GrowattV1ApiError message), w') =>
        let err := GrowattV1ApiError message in
        let msg :=
          "Error applying " +:+ _setting_type self +:+ " settings: "
          +:+ str_exn err in
        (Raise (HomeAssistantError msg (Some err)),
         emit (EvLog LogException msg) w')
    | other => other
    end.

End Button.

(** [_attr_unique_id] of a button. *)
Definition button_unique_id (self : GrowattApplySettingsButton) : string :=
  device_id (coordinator self) +:+ "_apply_" +:+ _setting_type self
  +:+ "_settings".

(** [async_setup_entry]: the buttons handed to [async_add_entities]; the
    host [h] is the one the buttons are added to. *)
Definition async_setup_entry (h : HomeAssistant)
  (devices : list GrowattCoordinator) : list GrowattApplySettingsButton :=
  fold_left
    (fun entities device_coordinator =>
       if existsb (String.eqb (device_type device_coordinator)) ["mix"; "tlx"]
          && String.eqb (api_version device_coordinator) "v1"
       then
         entities ++
         [ {| hass := h; coordinator := device_coordinator;
              _setting_type := "charge" |};
           {| hass := h; coordinator := device_coordinator;
              _setting_type := "discharge" |} ]
       else entities)
    devices [].

End ButtonPlatform.

(** ** Reference definitions for the statements

    These follow the wording of the specification; the theorems below
    compare them with the code. *)

Module Spec.
Import TimePlatform ButtonPlatform.

(** A field name is a stem followed by the segment number. *)
Definition segment_field (stems : string * string * string)
  (field_type : string) (n : Z) : result string :=
  let '(start, stop, enabled) := stems in
  if String.eqb field_type "start_time" then Ok (start +:+ str_int n)
  else if String.eqb field_type "stop_time" then Ok (stop +:+ str_int n)
  else if String.eqb field_type "enabled" then Ok (enabled +:+ str_int n)
  else Raise (KeyError field_type).

Definition numbered_segment_stems : string * string * string :=
  ("timeSegmentStart", "timeSegmentStop", "timeSegmentEnabled").

Definition charge_stems : string * string * string :=
  ("forcedChargeTimeStart", "forcedChargeTimeStop", "forcedChargeStopSwitch").

Definition discharge_stems : string * string * string :=
  ("forcedDischargeTimeStart", "forcedDischargeTimeStop",
   "forcedDischargeStopSwitch").

Definition is_charge_class (k : TimeEntityClass) : bool :=
  match k with
  | GrowattChargeStartTimeEntity | GrowattChargeEndTimeEntity => true
  | _ => false
  end.

(** The zero-padded text of a time of day. *)
Definition hh_mm (t : time) : string :=
  String (digit_char (Z.to_N (hour t / 10)))
    (String (digit_char (Z.to_N (hour t mod 10)))
       (String ":"
          (String (digit_char (Z.to_N (minute t / 10)))
             (String (digit_char (Z.to_N (minute t mod 10))) EmptyString)))).

(** The statements of the [try] block of [native_value], run on the text
    that [async_set_value] stores for [h] hours and [m] minutes. *)
Definition reread (h m : Z) : result time :=
  parts <- split_value (VStr (fmt_02d h +:+ ":" +:+ fmt_02d m)) ":" ;;
  p0 <- getitem parts 0 ;;
  h' <- int_of_str p0 ;;
  p1 <- getitem parts 1 ;;
  m' <- int_of_str p1 ;;
  new_time h' m'.

Definition time_eqb (a b : time) : bool :=
  (hour a =? hour b) && (minute a =? minute b) && (second a =? second b)
  && (microsecond a =? microsecond b).

(** The round trip and the shape of the stored text, checked for one
    hour and one minute. *)
Definition clock_check (h m : nat) : bool :=
  let t := mk_time (Z.of_nat h) (Z.of_nat m) 0 0 in
  match reread (Z.of_nat h) (Z.of_nat m) with
  | Ok t' => time_eqb t' t
  | Raise _ => false
  end
  && String.eqb (fmt_02d (Z.of_nat h) +:+ ":" +:+ fmt_02d (Z.of_nat m))
       (hh_mm t).

Definition clock_check_all : bool :=
  forallb (fun h => forallb (clock_check h) (seq 0 60)) (seq 0 24).

(** The word a press builds its entity suffixes and messages from. *)
Definition setting_kind (self : GrowattApplySettingsButton) : string :=
  if String.eqb (_setting_type self) "charge" then "charge" else "discharge".

Definition siblings_of (self : GrowattApplySettingsButton) : Siblings :=
  find_siblings (hass self) (device_id (coordinator self)) (setting_kind self).

(** The sibling values a press requires, each with the identifier it is
    reported under: two for the numbered-segment family, five for the
    other one. *)
Definition required_fields (self : GrowattApplySettingsButton)
  : list (option State * string) :=
  let f := siblings_of self in
  let dev := device_id (coordinator self) in
  let kind := setting_kind self in
  let numbers :=
    [ (power_entity f, "number." +:+ dev +:+ "_" +:+ kind +:+ "_power");
      (stop_soc_entity f, "number." +:+ dev +:+ "_" +:+ kind +:+ "_stop_soc") ]
  in
  if String.eqb (device_type (coordinator self)) "tlx" then numbers
  else
    [ (start_entity f, "time." +:+ dev +:+ "_" +:+ kind +:+ "_start_time");
      (end_entity f, "time." +:+ dev +:+ "_" +:+ kind +:+ "_end_time");
      (enabled_entity f,
       "switch." +:+ dev +:+ "_" +:+ kind +:+ "_period_1_enabled") ]
    ++ numbers.

Definition missing_fields (self : GrowattApplySettingsButton) : list string :=
  map snd (List.filter (fun p => negb (truthy (fst p))) (required_fields self)).

(** What the user sees when [e] is raised inside a press. *)
Definition surfaced (setting_type : string) (e : exn) : exn :=
  match e with
  | GrowattV1ApiError message =>
      HomeAssistantError
        ("Error applying " +:+ setting_type +:+ " settings: " +:+ message)
        (Some e)
  | _ => e
  end.

Definition accepted (calls : list VendorCall)
  : list (VendorCall * option exn) :=
  map (fun c => (c, None)) calls.

(** The single write of a press on the other family, for the values read
    from the sibling entities and, on the charge side, the integer [ac]
    read from [acChargeEnable]. *)
Definition mix_write (self : GrowattApplySettingsButton)
  (start_time end_time : time) (enabled : bool) (p s ac : Z) : VendorCall :=
  let dev := device_id (coordinator self) in
  if String.eqb (_setting_type self) "charge"
  then
    write_time_segment dev SPH_MIX "mix_ac_charge_time_period"
      (ChargeSegment
         {| mc_charge_power := p;
            mc_charge_stop_soc := s;
            mc_mains_enabled := negb (ac =? 0);
            mc_start_hour := hour start_time;
            mc_start_minute := minute start_time;
            mc_end_hour := hour end_time;
            mc_end_minute := minute end_time;
            mc_enabled := enabled;
            mc_segment_id := 1 |})
  else
    write_time_segment dev SPH_MIX "mix_ac_discharge_time_period"
      (DischargeSegment
         {| md_discharge_power := p;
            md_discharge_stop_soc := s;
            md_start_hour := hour start_time;
            md_start_minute := minute start_time;
            md_end_hour := hour end_time;
            md_end_minute := minute end_time;
            md_enabled := enabled;
            md_segment_id := 1 |}).

(** How a run of [_apply_charge_settings] or [_apply_discharge_settings]
    can end, [evs] being the events it added: it returned and every call
    was accepted; it raised before any call; or the last call raised,
    the calls before it were accepted and were other calls. *)
Definition apply_outcome (r : result unit) (evs : list Event) : Prop :=
  (r = Ok tt /\ exists calls, vendor_events evs = accepted calls)
  \/ (exists e, r = Raise e /\ vendor_events evs = [])
  \/ (exists e calls c,
        r = Raise e
        /\ vendor_events evs = accepted calls ++ [(c, Some e)]
        /\ ~ In c calls).

Definition is_log_exception (ev : Event) : bool :=
  match ev with
  | EvLog LogException _ => true
  | _ => false
  end.

Definition tlx_params (charge_power charge_stop_soc discharge_power
  discharge_stop_soc : Z) : ChargeDischargeParams :=
  {| cd_charge_power := charge_power;
     cd_charge_stop_soc := charge_stop_soc;
     cd_discharge_power := discharge_power;
     cd_discharge_stop_soc := discharge_stop_soc;
     cd_ac_charge_enabled := false |}.

(** The two writes of a press on the numbered-segment family, for a
    power [p] and a stop SOC [s]. *)
Definition tlx_power_write (self : GrowattApplySettingsButton) (p : Z)
  : VendorCall :=
  let dev := device_id (coordinator self) in
  if String.eqb (_setting_type self) "charge"
  then write_parameter dev MIN_TLX "charge_power" (tlx_params p 0 0 0)
  else write_parameter dev MIN_TLX "discharge_power" (tlx_params 0 0 p 0).

Definition tlx_soc_write (self : GrowattApplySettingsButton) (s : Z)
  : VendorCall :=
  let dev := device_id (coordinator self) in
  if String.eqb (_setting_type self) "charge"
  then write_parameter dev MIN_TLX "charge_stop_soc" (tlx_params 0 s 0 0)
  else write_parameter dev MIN_TLX "discharge_stop_soc" (tlx_params 0 0 0 s).

(** The stem of the field that an entity of class [k] reads and writes
    on coordinator [c]. *)
Definition own_stem (c : GrowattCoordinator) (k : TimeEntityClass) : string :=
  if String.eqb (device_type c) "tlx" then
    match k with
    | GrowattChargeStartTimeEntity | GrowattDischargeStartTimeEntity =>
        "timeSegmentStart"
    | GrowattChargeEndTimeEntity | GrowattDischargeEndTimeEntity =>
        "timeSegmentStop"
    end
  else
    match k with
    | GrowattChargeStartTimeEntity => "forcedChargeTimeStart"
    | GrowattChargeEndTimeEntity => "forcedChargeTimeStop"
    | GrowattDischargeStartTimeEntity => "forcedDischargeTimeStart"
    | GrowattDischargeEndTimeEntity => "forcedDischargeTimeStop"
    end.

(** The number descriptions of both device families. *)
Definition number_types : list NumberPlatform.GrowattNumberEntityDescription :=
  NumberPlatform.MIN_NUMBER_TYPES ++ NumberPlatform.MIX_NUMBER_TYPES.

(** Devices served through the V1 API, and among them those with a
    charge and discharge schedule. *)
Definition is_v1 (c : GrowattCoordinator) : bool :=
  String.eqb (api_version c) "v1".

Definition has_schedule (c : GrowattCoordinator) : bool :=
  is_v1 c
  && (String.eqb (device_type c) "mix" || String.eqb (device_type c) "tlx").

(** The five values a press looks for among the sibling entities. *)
Inductive Slot : Type :=
| PowerSlot
| StopSocSlot
| StartSlot
| EndSlot
| EnabledSlot.

Definition slot_eqb (a b : Slot) : bool :=
  match a, b with
  | PowerSlot, PowerSlot | StopSocSlot, StopSocSlot | StartSlot, StartSlot
  | EndSlot, EndSlot | EnabledSlot, EnabledSlot => true
  | _, _ => false
  end.

Definition slot_value (f : Siblings) (s : Slot) : option State :=
  match s with
  | PowerSlot => power_entity f
  | StopSocSlot => stop_soc_entity f
  | StartSlot => start_entity f
  | EndSlot => end_entity f
  | EnabledSlot => enabled_entity f
  end.

(** The slot a registry entry is taken for, if any: the entry belongs to
    the integration, its unique id contains the device id, and the slot
    is the first one whose suffix the unique id ends with. *)
Definition matched_slot (device kind : string) (entity : RegistryEntry)
  : option Slot :=
  if String.eqb (platform entity) "growatt_server"
     && contains device (ButtonPlatform.unique_id entity)
  then
    if endswith (ButtonPlatform.unique_id entity) ("_" +:+ kind +:+ "_power")
    then Some PowerSlot
    else if endswith (ButtonPlatform.unique_id entity)
              ("_" +:+ kind +:+ "_stop_soc")
    then Some StopSocSlot
    else if endswith (ButtonPlatform.unique_id entity)
              ("_" +:+ kind +:+ "_start_time_1")
    then Some StartSlot
    else if endswith (ButtonPlatform.unique_id entity)
              ("_" +:+ kind +:+ "_end_time_1")
    then Some EndSlot
    else if endswith (ButtonPlatform.unique_id entity)
              ("_" +:+ kind +:+ "_period_1_enabled")
    then Some EnabledSlot
    else None
  else None.

Definition is_slot (device kind : string) (s : Slot) (entity : RegistryEntry)
  : bool :=
  match matched_slot device kind entity with
  | Some s' => slot_eqb s' s
  | None => false
  end.

(** The last registry entry taken for a slot. *)
Definition last_match (h : HomeAssistant) (device kind : string) (s : Slot)
  : option RegistryEntry :=
  List.find (is_slot device kind s) (rev (entities h)).

(** The registry entry of an entity of this integration. *)
Definition registry_entry (uid eid : string) : RegistryEntry :=
  {| platform := "growatt_server"; ButtonPlatform.unique_id := uid;
     entity_id := eid |}.

(** The five suffix tests of the loop are decided by the tail of the
    unique id. *)
Definition tail_decides (kind tail : string) : bool :=
  forallb
    (fun suffix =>
       (String.length suffix <=? String.length tail)%nat
       || negb (endswith suffix tail))
    [ "_" +:+ kind +:+ "_power"; "_" +:+ kind +:+ "_stop_soc";
      "_" +:+ kind +:+ "_start_time_1"; "_" +:+ kind +:+ "_end_time_1";
      "_" +:+ kind +:+ "_period_1_enabled" ].

(** A vendor call as a press of [self] may issue it: to the device of the
    coordinator, as a parameter write of a MIN/TLX device on the
    numbered-segment family and as a time segment write of an SPH/MIX
    device on the other one. *)
Definition call_of_press (self : GrowattApplySettingsButton) (c : VendorCall)
  : Prop :=
  match c with
  | write_parameter dev dt _ _ =>
      dev = device_id (coordinator self) /\ dt = MIN_TLX
      /\ device_type (coordinator self) = "tlx"
  | write_time_segment dev dt _ _ =>
      dev = device_id (coordinator self) /\ dt = SPH_MIX
      /\ device_type (coordinator self) <> "tlx"
  end.

End Spec.

(** ** A sample installation *)

Module Samples.
Import TimePlatform NumberPlatform ButtonPlatform.

Definition tlx_coordinator : GrowattCoordinator :=
  {| device_id := "TLX0001"; device_type := "tlx"; api_version := "v1";
     api := OpenApiV1 |}.

Definition mix_coordinator : GrowattCoordinator :=
  {| device_id := "MIX0001"; device_type := "mix"; api_version := "v1";
     api := OpenApiV1 |}.

(** A coordinator whose client is not an [OpenApiV1] instance. *)
Definition other_client_coordinator : GrowattCoordinator :=
  {| device_id := "TLX0001"; device_type := "tlx"; api_version := "v1";
     api := ClassicApi |}.

Definition time_entity (k : TimeEntityClass) (c : GrowattCoordinator)
  : TimeEntity :=
  {| cls := k; TimePlatform.coordinator := c; _segment_id := 1 |}.

Definition charge_power_number : GrowattNumber :=
  {| NumberPlatform.coordinator := tlx_coordinator;
     entity_description :=
       percent_setting "charge_power" "chargePowerCommand" "charge_power" |}.

Definition empty_world : World := {| data := ∅; trace := [] |}.

Definition registered (domain uid : string) : RegistryEntry :=
  {| platform := "growatt_server"; unique_id := uid;
     entity_id := domain +:+ "." +:+ uid |}.

Definition registry_of (dev : string) : list RegistryEntry :=
  [ registered "number" (dev +:+ "_charge_power");
    registered "number" (dev +:+ "_charge_stop_soc");
    registered "number" (dev +:+ "_discharge_power");
    registered "number" (dev +:+ "_discharge_stop_soc");
    registered "time" (dev +:+ "_charge_start_time_1");
    registered "time" (dev +:+ "_charge_end_time_1");
    registered "time" (dev +:+ "_discharge_start_time_1");
    registered "time" (dev +:+ "_discharge_end_time_1");
    registered "switch" (dev +:+ "_charge_period_1_enabled");
    registered "switch" (dev +:+ "_discharge_period_1_enabled") ].

Definition states_of (dev : string) : gmap string State :=
  list_to_map
    [ ("number." +:+ dev +:+ "_charge_power", {| state := "80" |});
      ("number." +:+ dev +:+ "_charge_stop_soc", {| state := "95" |});
      ("number." +:+ dev +:+ "_discharge_power", {| state := "60" |});
      ("number." +:+ dev +:+ "_discharge_stop_soc", {| state := "20" |});
      ("time." +:+ dev +:+ "_charge_start_time_1", {| state := "01:30:00" |});
      ("time." +:+ dev +:+ "_charge_end_time_1", {| state := "05:00:00" |});
      ("time." +:+ dev +:+ "_discharge_start_time_1",
       {| state := "17:00:00" |});
      ("time." +:+ dev +:+ "_discharge_end_time_1", {| state := "21:45:00" |});
      ("switch." +:+ dev +:+ "_charge_period_1_enabled", {| state := "on" |});
      ("switch." +:+ dev +:+ "_discharge_period_1_enabled",
       {| state := "off" |}) ].

Definition full_hass (dev : string) : HomeAssistant :=
  {| entities := registry_of dev; states := states_of dev |}.

(** A host in which the charge power number is unavailable. *)
Definition unavailable_hass (dev : string) : HomeAssistant :=
  {| entities := registry_of dev;
     states :=
       <["number." +:+ dev +:+ "_charge_power" := {| state := "unavailable" |}]>
         (states_of dev) |}.

(** A host in which no sibling entity is registered. *)
Definition bare_hass : HomeAssistant :=
  {| entities := []; states := ∅ |}.

(** A host in which the stop-SOC numbers are registered without state. *)
Definition partial_hass (dev : string) : HomeAssistant :=
  {| entities := registry_of dev;
     states :=
       delete ("number." +:+ dev +:+ "_charge_stop_soc")
         (delete ("number." +:+ dev +:+ "_discharge_stop_soc")
            (states_of dev)) |}.

Definition button (h : HomeAssistant) (c : GrowattCoordinator)
  (setting_type : string) : GrowattApplySettingsButton :=
  {| hass := h; ButtonPlatform.coordinator := c;
     _setting_type := setting_type |}.

(** [float] on the texts of whole numbers, enough for the states above. *)
Definition float_of_whole (s : string) : option spec_float :=
  match int_of_str s with
  | Ok 0 => Some (S754_zero false)
  | Ok (Z.pos p) => Some (S754_finite false p 0)
  | Ok (Z.neg p) => Some (S754_finite true p 0)
  | Raise _ => None
  end.

(** [time.fromisoformat] on [HH:MM:SS] texts, enough for the states
    above. *)
Definition fromisoformat_hms (s : string) : option time :=
  match split_on ":" s with
  | [h; m; sec] =>
      match int_of_str h, int_of_str m, int_of_str sec with
      | Ok h', Ok m', Ok s' =>
          if (0 <=? h') && (h' <=? 23) && (0 <=? m') && (m' <=? 59)
             && (0 <=? s') && (s' <=? 59)
          then Some (mk_time h' m' s' 0) else None
      | _, _, _ => None
      end
  | _ => None
  end.

(** Vendor clouds: one that accepts every write, one that rejects every
    write, one that rejects the stop-SOC writes only. *)
Definition accepting : list (VendorCall * option exn) -> VendorCall
  -> option exn :=
  fun _ _ => None.

Definition rejecting : list (VendorCall * option exn) -> VendorCall
  -> option exn :=
  fun _ _ => Some (GrowattV1ApiError "error code 10012").

Definition rejecting_soc : list (VendorCall * option exn) -> VendorCall
  -> option exn :=
  fun _ call =>
    match call with
    | write_parameter _ _ parameter_id _ =>
        if endswith parameter_id "_stop_soc"
        then Some (GrowattV1ApiError "error code 10012") else None
    | _ => None
    end.

End Samples.

(** * Properties *)

Import TimePlatform NumberPlatform ButtonPlatform Spec.

(** ** Time entities: field names *)

Lemma time_eqb_eq (a b : time) : time_eqb a b = true -> a = b.
Proof.
  destruct a, b. unfold time_eqb. simpl. intros H.
  repeat (apply andb_prop in H; destruct H as [H ?]).
  f_equal; lia.
Qed.

Lemma append_empty_r (s : string) : s +:+ EmptyString = s.
Proof.
  induction s as [| c s IH]; [reflexivity |].
  change (String c s +:+ EmptyString) with (String c (s +:+ EmptyString)).
  rewrite IH. reflexivity.
Qed.

(** The name that [_get_field_name] builds is a stem of the table of the
    device family followed by the segment number. *)
Lemma get_field_name_table (self : TimeEntity) (field_type : string) :
  _get_field_name self field_type =
  segment_field
    (if String.eqb (device_type (TimePlatform.coordinator self)) "tlx"
     then numbered_segment_stems
     else if is_charge_class (cls self) then charge_stems
          else discharge_stems)
    field_type (_segment_id self).
Proof.
  unfold _get_field_name, segment_field, dict_getitem.
  destruct (String.eqb (device_type _) "tlx");
    [| destruct (cls self)];
    unfold numbered_segment_stems, charge_stems, discharge_stems,
      is_charge_class, mix_templates, MIN_TLX_FIELD_TEMPLATES,
      SPH_MIX_CHARGE_FIELD_TEMPLATES, SPH_MIX_DISCHARGE_FIELD_TEMPLATES;
    cbn [assoc];
    rewrite !(String.eqb_sym _ field_type);
    generalize (str_int (_segment_id self)); intros n;
    repeat (destruct (String.eqb field_type _);
            [cbv; fold (n +:+ EmptyString); rewrite append_empty_r;
             reflexivity |]);
    reflexivity.
Qed.

Lemma own_field_name (self : TimeEntity) :
  exists stem : string,
    _get_field_name self (own_field (cls self))
    = Ok (stem +:+ str_int (_segment_id self)).
Proof.
  rewrite get_field_name_table.
  destruct (String.eqb (device_type _) "tlx"); destruct (cls self);
    simpl; eexists; reflexivity.
Qed.

(** ** Time entities: the stored text and reading it back *)

Lemma clock_check_all_true : clock_check_all = true.
Proof. vm_compute. reflexivity. Qed.

Lemma clock_check_in_range (h m : Z) :
  0 <= h <= 23 -> 0 <= m <= 59 ->
  clock_check (Z.to_nat h) (Z.to_nat m) = true.
Proof.
  intros Hh Hm.
  pose proof clock_check_all_true as H.
  unfold clock_check_all in H.
  rewrite forallb_forall in H.
  specialize (H (Z.to_nat h)).
  rewrite forallb_forall in H.
  apply H; apply in_seq; lia.
Qed.

Lemma stored_text_reread (t : time) :
  wf_time t ->
  reread (hour t) (minute t) = Ok (mk_time (hour t) (minute t) 0 0)
  /\ fmt_02d (hour t) +:+ ":" +:+ fmt_02d (minute t) = hh_mm t.
Proof.
  intros (Hh & Hm & _).
  pose proof (clock_check_in_range _ _ Hh Hm) as H.
  unfold clock_check in H.
  rewrite !Z2Nat.id in H by lia.
  apply andb_prop in H. destruct H as [Hr Hs].
  split.
  - destruct (reread (hour t) (minute t)) as [t' |]; [| discriminate].
    apply time_eqb_eq in Hr. congruence.
  - apply String.eqb_eq in Hs. exact Hs.
Qed.

(** What [async_set_value] does, for any time object. *)
Lemma async_set_value_run (self : TimeEntity) (field : string) (t : time)
  (w : World) :
  _get_field_name self (own_field (cls self)) = Ok field ->
  async_set_value self t w =
  (Ok tt,
   {| data :=
        <[field := VStr (fmt_02d (hour t) +:+ ":" +:+ fmt_02d (minute t))]>
          (data w);
      trace := trace w ++ [EvWriteHaState] |}).
Proof. intros E. unfold async_set_value. rewrite E. reflexivity. Qed.

(** [native_value] on a mapping that holds a text written by
    [async_set_value]. *)
Lemma native_value_stored (self : TimeEntity) (field : string) (h m : Z)
  (d : gmap string Value) :
  _get_field_name self (own_field (cls self)) = Ok field ->
  d !! field = Some (VStr (fmt_02d h +:+ ":" +:+ fmt_02d m)) ->
  native_value self d =
  try_except_value_index (reread h m) (Ok (fallback (cls self))).
Proof.
  intros E L. unfold native_value. rewrite E.
  unfold rbind at 1. unfold dict_get. rewrite L. reflexivity.
Qed.

(** Writing through one entity and reading through another one that
    resolves to the same field. *)
Lemma write_then_read_shared (e1 e2 : TimeEntity) (field : string) (t : time)
  (w : World) :
  wf_time t ->
  _get_field_name e1 (own_field (cls e1)) = Ok field ->
  _get_field_name e2 (own_field (cls e2)) = Ok field ->
  native_value e2 (data (snd (async_set_value e1 t w)))
  = Ok (mk_time (hour t) (minute t) 0 0).
Proof.
  intros Ht E1 E2.
  rewrite (async_set_value_run e1 field t w E1). simpl.
  rewrite (native_value_stored e2 field (hour t) (minute t)); auto.
  - destruct (stored_text_reread t Ht) as [-> _]. reflexivity.
  - apply lookup_insert_eq.
Qed.

Lemma int_of_str_cases (s : string) :
  (exists n, int_of_str s = Ok n) \/ int_of_str s = Raise ValueError.
Proof.
  unfold int_of_str.
  match goal with
  | |- context [match ?p with pair _ _ => _ end] => destruct p as [neg s2]
  end.
  destruct (scan_digits false 0 0 s2) as [[[v n] rest] |].
  - destruct (_ && _); [left; eexists; reflexivity | right; reflexivity].
  - right. reflexivity.
Qed.

(** For a text (or an absent key) [native_value] returns a time, unless
    the constructor of [time] overflows. *)
Lemma native_value_text_cases (self : TimeEntity) (d : gmap string Value) :
  (forall field, _get_field_name self (own_field (cls self)) = Ok field ->
     d !! field = None \/ exists s, d !! field = Some (VStr s)) ->
  (exists t, native_value self d = Ok t)
  \/ native_value self d = Raise OverflowError.
Proof.
  intros Hd. destruct (own_field_name self) as [stem E].
  specialize (Hd _ E). unfold native_value. rewrite E.
  cbn [rbind].
  assert (exists s, dict_get d (stem +:+ str_int (_segment_id self))
                      (VStr (get_default (cls self))) = VStr s) as [s ->].
  { unfold dict_get. destruct Hd as [-> | [s ->]]; eexists; reflexivity. }
  unfold split_value. cbn [rbind].
  destruct (getitem (split_on ":" s) 0) as [p0 |] eqn:G0; simpl.
  2: { unfold getitem in G0. destruct (_ !! 0%nat); inversion G0. eauto. }
  destruct (int_of_str_cases p0) as [[h ->] | ->]; simpl; [| eauto].
  destruct (getitem (split_on ":" s) 1) as [p1 |] eqn:G1; simpl.
  2: { unfold getitem in G1. destruct (_ !! 1%nat); inversion G1. eauto. }
  destruct (int_of_str_cases p1) as [[m ->] | ->]; simpl; [| eauto].
  unfold new_time.
  destruct (negb (fits_c_int h && fits_c_int m)); simpl; [right; reflexivity |].
  destruct (negb _); simpl; [eauto |].
  destruct (negb _); simpl; eauto.
Qed.

(** C7. Field-name selection depends on the device family: for every
    field type and segment id, a time entity of a ["tlx"] device takes the
    name from the numbered segment templates, and an entity of any other
    device from the charge templates (charge entities) or the discharge
    templates (discharge entities); a field type outside the tables is a
    [KeyError]. In particular the start-time field of segment 1 of a
    ["tlx"] device is the literal key ["timeSegmentStart1"]. *)
Theorem field_name_by_device_family (self : TimeEntity) (field_type : string) :
  _get_field_name self field_type =
  segment_field
    (if String.eqb (device_type (TimePlatform.coordinator self)) "tlx"
     then ("timeSegmentStart", "timeSegmentStop", "timeSegmentEnabled")
     else if is_charge_class (cls self)
          then ("forcedChargeTimeStart", "forcedChargeTimeStop",
                "forcedChargeStopSwitch")
          else ("forcedDischargeTimeStart", "forcedDischargeTimeStop",
                "forcedDischargeStopSwitch"))
    field_type (_segment_id self)
  /\ (forall (k : TimeEntityClass) (dev ver : string) (client : ApiClient),
        _get_field_name
          {| cls := k;
             TimePlatform.coordinator :=
               {| device_id := dev; device_type := "tlx";
                  api_version := ver; api := client |};
             _segment_id := 1 |} "start_time"
        = Ok "timeSegmentStart1").
Proof.
  split.
  - apply get_field_name_table.
  - intros k dev ver client. rewrite get_field_name_table. reflexivity.
Qed.

(** C8. On a ["tlx"] device the charge entity and the discharge entity of
    the same segment resolve every field type to the same name
    ([timeSegmentStart{n}], [timeSegmentStop{n}], [timeSegmentEnabled{n}]),
    so a start (end) time set through the charge entity is what the
    discharge start (end) entity reads, and the other way round. *)
Theorem tlx_charge_discharge_share_fields (c : GrowattCoordinator) (n : Z)
  (t : time) (w : World) :
  device_type c = "tlx" ->
  wf_time t ->
  let entity k :=
    {| cls := k; TimePlatform.coordinator := c; _segment_id := n |} in
  let charge_start := entity GrowattChargeStartTimeEntity in
  let charge_end := entity GrowattChargeEndTimeEntity in
  let discharge_start := entity GrowattDischargeStartTimeEntity in
  let discharge_end := entity GrowattDischargeEndTimeEntity in
  (forall k1 k2 field_type,
     _get_field_name (entity k1) field_type
     = _get_field_name (entity k2) field_type)
  /\ _get_field_name charge_start "start_time"
     = Ok ("timeSegmentStart" +:+ str_int n)
  /\ _get_field_name discharge_start "start_time"
     = Ok ("timeSegmentStart" +:+ str_int n)
  /\ _get_field_name charge_end "stop_time"
     = Ok ("timeSegmentStop" +:+ str_int n)
  /\ _get_field_name discharge_end "stop_time"
     = Ok ("timeSegmentStop" +:+ str_int n)
  /\ native_value discharge_start (data (snd (async_set_value charge_start t w)))
     = Ok (mk_time (hour t) (minute t) 0 0)
  /\ native_value charge_start (data (snd (async_set_value discharge_start t w)))
     = Ok (mk_time (hour t) (minute t) 0 0)
  /\ native_value discharge_end (data (snd (async_set_value charge_end t w)))
     = Ok (mk_time (hour t) (minute t) 0 0)
  /\ native_value charge_end (data (snd (async_set_value discharge_end t w)))
     = Ok (mk_time (hour t) (minute t) 0 0).
Proof.
  intros Htlx Ht entity charge_start charge_end discharge_start discharge_end.
  assert (forall k ft,
            _get_field_name (entity k) ft
            = segment_field numbered_segment_stems ft n) as Hname.
  { intros k ft. rewrite get_field_name_table. simpl. rewrite Htlx.
    reflexivity. }
  subst charge_start charge_end discharge_start discharge_end.
  split; [intros k1 k2 ft; rewrite !Hname; reflexivity |].
  repeat (split; [apply Hname |]).
  split; [| split; [| split]].
  1, 2: apply (write_then_read_shared _ _ ("timeSegmentStart" +:+ str_int n));
    [exact Ht | apply Hname | apply Hname].
  1, 2: apply (write_then_read_shared _ _ ("timeSegmentStop" +:+ str_int n));
    [exact Ht | apply Hname | apply Hname].
Qed.

(** The sample TLX device, segment 1, a time of 07:05:30. *)
Lemma tlx_charge_discharge_share_fields_witness :
  device_type Samples.tlx_coordinator = "tlx"
  /\ wf_time (mk_time 7 5 30 0)
  /\ native_value
       (Samples.time_entity GrowattDischargeStartTimeEntity
          Samples.tlx_coordinator)
       (data
          (snd
             (async_set_value
                (Samples.time_entity GrowattChargeStartTimeEntity
                   Samples.tlx_coordinator)
                (mk_time 7 5 30 0) Samples.empty_world)))
     = Ok (mk_time 7 5 0 0).
Proof.
  split; [reflexivity |].
  split; [unfold wf_time; simpl; lia |].
  apply (tlx_charge_discharge_share_fields Samples.tlx_coordinator 1
           (mk_time 7 5 30 0) Samples.empty_world).
  - reflexivity.
  - unfold wf_time; simpl; lia.
Defined.

(** C9 fails on the code at a text whose hour does not fit a C [int]:
    [int] accepts the digits, the constructor of [time] raises
    [OverflowError], and the [except (ValueError, IndexError)] clause
    lets it through. *)
Theorem native_value_overflow_escapes :
  native_value
    (Samples.time_entity GrowattChargeStartTimeEntity Samples.tlx_coordinator)
    {[ "timeSegmentStart1" := VStr "2147483648:00" ]}
  = Raise OverflowError
  /\ native_value
       (Samples.time_entity GrowattDischargeEndTimeEntity
          Samples.mix_coordinator)
       {[ "forcedDischargeTimeStop1" := VStr "00:99999999999" ]}
     = Raise OverflowError.
Proof. split; vm_compute; reflexivity. Qed.

(** C10. Round trip: for every time value [t], [async_set_value t]
    followed by [native_value] on the same mapping returns
    [time(t.hour, t.minute)]; seconds and microseconds are dropped. *)
Theorem set_value_then_native_value (self : TimeEntity) (t : time) (w : World) :
  wf_time t ->
  fst (async_set_value self t w) = Ok tt
  /\ native_value self (data (snd (async_set_value self t w)))
     = Ok (mk_time (hour t) (minute t) 0 0).
Proof.
  intros Ht. destruct (own_field_name self) as [stem E]. split.
  - rewrite (async_set_value_run self _ t w E). reflexivity.
  - eapply write_then_read_shared; eauto.
Qed.

(** The charge end entity of the sample MIX device, 23:59:58.123456. *)
Lemma set_value_then_native_value_witness :
  wf_time (mk_time 23 59 58 123456)
  /\ native_value
       (Samples.time_entity GrowattChargeEndTimeEntity Samples.mix_coordinator)
       (data
          (snd
             (async_set_value
                (Samples.time_entity GrowattChargeEndTimeEntity
                   Samples.mix_coordinator)
                (mk_time 23 59 58 123456) Samples.empty_world)))
     = Ok (mk_time 23 59 0 0).
Proof.
  split; [unfold wf_time; simpl; lia |].
  apply (set_value_then_native_value
           (Samples.time_entity GrowattChargeEndTimeEntity
              Samples.mix_coordinator)
           (mk_time 23 59 58 123456) Samples.empty_world).
  unfold wf_time; simpl; lia.
Defined.

(** ** Local edits *)

Lemma vendor_events_app (tr1 tr2 : list Event) :
  vendor_events (tr1 ++ tr2) = vendor_events tr1 ++ vendor_events tr2.
Proof. unfold vendor_events. apply omap_app. Qed.

Lemma vendor_events_write_state (tr : list Event) :
  vendor_events (tr ++ [EvWriteHaState]) = vendor_events tr.
Proof. rewrite vendor_events_app. simpl. apply app_nil_r. Qed.

(** C6. A local edit of a number or of a time entity stores only the
    coerced value ([int(value)] for a number, the zero-padded [HH:MM]
    text for a time) under the entity's own field key, whatever the
    value is: nothing is checked against a range or against other
    fields, no other key changes and no vendor call is made. (A float
    that [int] refuses, NaN or an infinity, raises before anything is
    stored.) *)
Theorem local_edit_writes_one_key (num : GrowattNumber) (value : spec_float)
  (te : TimeEntity) (t : time) (w : World) :
  wf_time t ->
  let wn := snd (async_set_native_value num value w) in
  let wt := snd (async_set_value te t w) in
  match int_of_float value with
  | Ok n =>
      fst (async_set_native_value num value w) = Ok tt
      /\ data wn = <[api_key (entity_description num) := VInt n]> (data w)
  | Raise e =>
      fst (async_set_native_value num value w) = Raise e
      /\ data wn = data w
  end
  /\ (forall k, k <> api_key (entity_description num) ->
        data wn !! k = data w !! k)
  /\ vendor_events (trace wn) = vendor_events (trace w)
  /\ exists field,
       _get_field_name te (own_field (cls te)) = Ok field
       /\ fst (async_set_value te t w) = Ok tt
       /\ data wt = <[field := VStr (hh_mm t)]> (data w)
       /\ (forall k, k <> field -> data wt !! k = data w !! k)
       /\ vendor_events (trace wt) = vendor_events (trace w).
Proof.
  intros Ht wn wt. subst wn wt.
  unfold async_set_native_value.
  repeat split.
  - destruct (int_of_float value); simpl; split; reflexivity.
  - intros k Hk. destruct (int_of_float value); simpl; [| reflexivity].
    apply lookup_insert_ne. congruence.
  - destruct (int_of_float value); simpl; [| reflexivity].
    apply vendor_events_write_state.
  - destruct (own_field_name te) as [stem E].
    exists (stem +:+ str_int (_segment_id te)).
    rewrite (async_set_value_run te _ t w E). simpl.
    destruct (stored_text_reread t Ht) as [_ ->].
    repeat split; auto.
    + intros k Hk. apply lookup_insert_ne. congruence.
    + apply vendor_events_write_state.
Qed.

(** A charge power of 250.5 on the sample TLX device and a charge start
    of 06:30 on the sample MIX device. *)
Lemma local_edit_writes_one_key_witness :
  wf_time (mk_time 6 30 0 0)
  /\ data (snd (async_set_native_value Samples.charge_power_number
                  (S754_finite false 501 (-1)) Samples.empty_world))
     = {[ "chargePowerCommand" := VInt 250 ]}
  /\ data (snd (async_set_value
                  (Samples.time_entity GrowattChargeStartTimeEntity
                     Samples.mix_coordinator)
                  (mk_time 6 30 0 0) Samples.empty_world))
     = {[ "forcedChargeTimeStart1" := VStr "06:30" ]}.
Proof.
  assert (wf_time (mk_time 6 30 0 0)) as Ht by (unfold wf_time; simpl; lia).
  split; [exact Ht |].
  pose proof (local_edit_writes_one_key Samples.charge_power_number
                (S754_finite false 501 (-1))
                (Samples.time_entity GrowattChargeStartTimeEntity
                   Samples.mix_coordinator)
                (mk_time 6 30 0 0) Samples.empty_world Ht) as H.
  cbv zeta in H.
  destruct H as ((_ & Hn) & _ & _ & field & Hf & _ & Hd & _).
  split.
  - rewrite Hn. reflexivity.
  - rewrite Hd.
    assert (field = "forcedChargeTimeStart1") as ->
        by (vm_compute in Hf; congruence).
    reflexivity.
Defined.

(** ** Time and number entities: more on the shared mapping *)

Lemma own_field_stem (c : GrowattCoordinator) (k : TimeEntityClass) (n : Z) :
  _get_field_name
    {| cls := k; TimePlatform.coordinator := c; _segment_id := n |}
    (own_field k)
  = Ok (own_stem c k +:+ str_int n).
Proof.
  rewrite get_field_name_table. unfold own_stem. simpl.
  destruct (String.eqb (device_type c) "tlx"); destruct k; reflexivity.
Qed.

(** [native_value] looks at one key of the mapping only. *)
Lemma native_value_ext (self : TimeEntity) (field : string)
  (d d' : gmap string Value) :
  _get_field_name self (own_field (cls self)) = Ok field ->
  d !! field = d' !! field ->
  native_value self d = native_value self d'.
Proof.
  intros E H. unfold native_value. rewrite E. cbn [rbind].
  unfold dict_get. rewrite H. reflexivity.
Qed.

(** Two stems that differ before either ends give different names,
    whatever follows them. *)
Lemma own_stem_apart (c : GrowattCoordinator) (k1 k2 : TimeEntityClass)
  (a b : string) :
  k1 <> k2 ->
  device_type c <> "tlx" \/ own_field k1 <> own_field k2 ->
  own_stem c k1 +:+ a <> own_stem c k2 +:+ b.
Proof.
  intros Hk Hd. unfold own_stem.
  destruct (String.eqb_spec (device_type c) "tlx") as [E | E].
  - destruct Hd as [Hd | Hd]; [contradiction |].
    destruct k1, k2; try contradiction; intros H; vm_compute in H;
      discriminate H.
  - destruct k1, k2; try contradiction; intros H; vm_compute in H;
      discriminate H.
Qed.

(** X8. A stored value that is not text (a null, a number, a boolean)
    has no [split]: [native_value] raises [AttributeError], which the
    [except] clause does not catch. *)
Theorem native_value_of_non_text (self : TimeEntity) (d : gmap string Value)
  (field : string) (v : Value) :
  _get_field_name self (own_field (cls self)) = Ok field ->
  d !! field = Some v ->
  (forall s, v <> VStr s) ->
  native_value self d = Raise AttributeError.
Proof.
  intros E L Hv. unfold native_value. rewrite E. cbn [rbind].
  unfold dict_get. rewrite L.
  destruct v; try reflexivity. exfalso. eapply Hv. reflexivity.
Qed.

(** The charge start entity of the sample TLX device on a null. *)
Lemma native_value_of_non_text_witness :
  native_value
    (Samples.time_entity GrowattChargeStartTimeEntity Samples.tlx_coordinator)
    {[ "timeSegmentStart1" := VNone ]}
  = Raise AttributeError.
Proof.
  apply (native_value_of_non_text
           (Samples.time_entity GrowattChargeStartTimeEntity
              Samples.tlx_coordinator)
           {[ "timeSegmentStart1" := VNone ]} "timeSegmentStart1" VNone).
  - vm_compute. reflexivity.
  - vm_compute. reflexivity.
  - intros s H. discriminate H.
Defined.



(** X9. Edits through different time entities of one device do not
    disturb each other, except where C8 says they share a field: on a
    device that is not ["tlx"] a write through one of the four classes
    leaves what the other three read unchanged, and on a ["tlx"] device
    a write through a start entity leaves the end entities unchanged and
    conversely. This holds for any segment ids and any value written. *)
Theorem time_edit_leaves_other_fields (c : GrowattCoordinator)
  (k1 k2 : TimeEntityClass) (n1 n2 : Z) (t : time) (w : World) :
  k1 <> k2 ->
  device_type c <> "tlx" \/ own_field k1 <> own_field k2 ->
  native_value
    {| cls := k2; TimePlatform.coordinator := c; _segment_id := n2 |}
    (data
       (snd
          (async_set_value
             {| cls := k1; TimePlatform.coordinator := c; _segment_id := n1 |}
             t w)))
  = native_value
      {| cls := k2; TimePlatform.coordinator := c; _segment_id := n2 |}
      (data w).
Proof.
  intros Hk Hd.
  rewrite (async_set_value_run _ _ t w (own_field_stem c k1 n1)). simpl.
  apply (native_value_ext _ _ _ _ (own_field_stem c k2 n2)).
  apply lookup_insert_ne. apply own_stem_apart; assumption.
Qed.

(** Charge start written, discharge start read, on the sample MIX
    device. *)
Lemma time_edit_leaves_other_fields_witness :
  native_value
    (Samples.time_entity GrowattDischargeStartTimeEntity
       Samples.mix_coordinator)
    (data
       (snd
          (async_set_value
             (Samples.time_entity GrowattChargeStartTimeEntity
                Samples.mix_coordinator)
             (mk_time 7 5 0 0) Samples.empty_world)))
  = Ok (mk_time 0 0 0 0).
Proof.
  etransitivity.
  - apply (time_edit_leaves_other_fields Samples.mix_coordinator
             GrowattChargeStartTimeEntity GrowattDischargeStartTimeEntity
             1 1 (mk_time 7 5 0 0) Samples.empty_world).
    + discriminate.
    + left. discriminate.
  - vm_compute. reflexivity.
Defined.


(** X11. The keys of the number entities and the fields of the time
    entities are apart: editing a number of either family changes no
    time entity's value, and editing a time entity changes the value
    under no number's key. *)
Theorem number_and_time_keys_apart (num : GrowattNumber) (value : spec_float)
  (te : TimeEntity) (t : time) (w : World) :
  In (entity_description num) number_types ->
  native_value te (data (snd (async_set_native_value num value w)))
  = native_value te (data w)
  /\ data (snd (async_set_value te t w)) !! api_key (entity_description num)
     = data w !! api_key (entity_description num).
Proof.
  intros Hin. destruct te as [k c n].
  pose proof (own_field_stem c k n) as E.
  assert (api_key (entity_description num) <> own_stem c k +:+ str_int n)
    as Hne.
  { unfold number_types, MIN_NUMBER_TYPES, MIX_NUMBER_TYPES in Hin.
    simpl in Hin. unfold own_stem. generalize (str_int n). intros sn.
    destruct (String.eqb (device_type c) "tlx");
      repeat (destruct Hin as [<- | Hin]; [| ]);
      try contradiction;
      destruct k; intros H; vm_compute in H; discriminate H. }
  split.
  - apply (native_value_ext _ _ _ _ E).
    unfold async_set_native_value.
    destruct (int_of_float value); simpl; [| reflexivity].
    apply lookup_insert_ne. exact Hne.
  - rewrite (async_set_value_run _ _ t w E). simpl.
    apply lookup_insert_ne. apply not_eq_sym. exact Hne.
Qed.

(** The charge power number of the sample TLX device and the charge
    start entity of the same device. *)
Lemma number_and_time_keys_apart_witness :
  native_value
    (Samples.time_entity GrowattChargeStartTimeEntity Samples.tlx_coordinator)
    (data
       (snd
          (async_set_native_value Samples.charge_power_number
             (S754_finite false 25 1) Samples.empty_world)))
  = Ok (mk_time 14 0 0 0).
Proof.
  etransitivity.
  - apply (number_and_time_keys_apart Samples.charge_power_number
             (S754_finite false 25 1)
             (Samples.time_entity GrowattChargeStartTimeEntity
                Samples.tlx_coordinator)
             (mk_time 0 0 0 0) Samples.empty_world).
    left. reflexivity.
  - vm_compute. reflexivity.
Defined.

(** ** The apply-settings button *)

Section ButtonProperties.

Variable float_of_str : string -> option spec_float.
Variable time_fromisoformat : string -> option time.
Variable vendor : list (VendorCall * option exn) -> VendorCall -> option exn.

Local Abbreviation apply_charge :=
  (_apply_charge_settings float_of_str time_fromisoformat vendor).
Local Abbreviation apply :=
  (apply_settings float_of_str time_fromisoformat vendor).
Local Abbreviation job := (async_add_executor_job vendor).
Local Abbreviation press :=
  (async_press float_of_str time_fromisoformat vendor).

(** *** One step of a run *)

Lemma bind_lift {A B} (r : result A) (k : A -> M B) (w : World) :
  bind (lift r) k w =
  match r with
  | Ok a => k a w
  | Raise e => (Raise e, w)
  end.
Proof. unfold bind, lift. destruct r; reflexivity. Qed.

Lemma bind_log {B} (level : LogLevel) (msg : string) (k : unit -> M B)
  (w : World) :
  bind (log level msg) k w = k tt (emit (EvLog level msg) w).
Proof. reflexivity. Qed.

Lemma bind_coordinator_data {B} (k : gmap string Value -> M B) (w : World) :
  bind coordinator_data k w = k (data w) w.
Proof. reflexivity. Qed.

Lemma job_run (call : VendorCall) (w : World) :
  job call w =
  match vendor (vendor_events (trace w)) call with
  | None => (Ok tt, emit (EvVendor call None) w)
  | Some e => (Raise e, emit (EvVendor call (Some e)) w)
  end.
Proof.
  unfold async_add_executor_job.
  destruct (vendor (vendor_events (trace w)) call); reflexivity.
Qed.

Lemma bind_job {B} (call : VendorCall) (k : unit -> M B) (w : World) :
  bind (job call) k w =
  match vendor (vendor_events (trace w)) call with
  | None => k tt (emit (EvVendor call None) w)
  | Some e => (Raise e, emit (EvVendor call (Some e)) w)
  end.
Proof.
  unfold bind. rewrite job_run.
  destruct (vendor (vendor_events (trace w)) call); reflexivity.
Qed.

Lemma bind_require_all {B} (present : list (option State)) (kind : string)
  (missing : list string) (k : unit -> M B) (w : World) :
  bind (require_all present kind missing) k w =
  if forallb truthy present then k tt w
  else (Raise (HomeAssistantError (missing_message kind missing) None),
        emit (EvLog LogError (missing_message kind missing)) w).
Proof.
  unfold require_all. destruct (forallb truthy present); reflexivity.
Qed.

Lemma vendor_events_emit_vendor (w : World) (call : VendorCall)
  (o : option exn) :
  vendor_events (trace (emit (EvVendor call o) w))
  = vendor_events (trace w) ++ [(call, o)].
Proof. simpl. rewrite vendor_events_app. reflexivity. Qed.

Lemma vendor_events_emit_log (w : World) (level : LogLevel) (msg : string) :
  vendor_events (trace (emit (EvLog level msg) w)) = vendor_events (trace w).
Proof. simpl. rewrite vendor_events_app. simpl. apply app_nil_r. Qed.

(** *** Validation *)

Lemma int_float_state_truthy (e : option State) (n : Z) :
  int_float_state float_of_str e = Ok n -> truthy e = true.
Proof. destruct e; [reflexivity | discriminate]. Qed.

Lemma time_state_truthy (e : option State) (t : time) :
  time_state time_fromisoformat e = Ok t -> truthy e = true.
Proof. destruct e; [reflexivity | discriminate]. Qed.

Lemma on_state_truthy (e : option State) (b : bool) :
  on_state e = Ok b -> truthy e = true.
Proof. destruct e; [reflexivity | discriminate]. Qed.

(** With an [OpenApiV1] client and a required value absent, the run ends
    in the validation error, after the error log entry only. *)
Lemma apply_settings_missing (self : GrowattApplySettingsButton) (w : World) :
  api (ButtonPlatform.coordinator self) = OpenApiV1 ->
  missing_fields self <> [] ->
  let msg := missing_message (setting_kind self) (missing_fields self) in
  apply self w
  = (Raise (HomeAssistantError msg None), emit (EvLog LogError msg) w).
Proof.
  unfold apply_settings, missing_fields, required_fields, siblings_of,
    setting_kind, _apply_charge_settings, _apply_discharge_settings.
  intros Hapi. rewrite Hapi.
  destruct (String.eqb (_setting_type self) "charge");
    destruct (String.eqb (device_type _) "tlx");
    rewrite bind_require_all;
    match goal with
    | |- context [find_siblings ?h ?d ?k] =>
        destruct (find_siblings h d k) as [[?|] [?|] [?|] [?|] [?|]]
    end;
    simpl; intros Hm; try reflexivity; contradiction.
Qed.

(** *** The shape of every run *)

Ltac run_step :=
  first
    [ rewrite bind_require_all
    | rewrite bind_lift
    | rewrite bind_log
    | rewrite bind_coordinator_data
    | rewrite bind_job
    | rewrite job_run ].

Ltac split_run :=
  match goal with
  | |- context [if forallb truthy ?l then _ else _] =>
      destruct (forallb truthy l)
  | |- context [match int_float_state ?f ?e with _ => _ end] =>
      destruct (int_float_state f e)
  | |- context [match time_state ?f ?e with _ => _ end] =>
      destruct (time_state f e)
  | |- context [match on_state ?e with _ => _ end] =>
      destruct (on_state e)
  | |- context [match int_of ?v with _ => _ end] =>
      destruct (int_of v)
  | |- context [match vendor ?h ?c with _ => _ end] =>
      destruct (vendor h c)
  end.

Ltac close_trace :=
  simpl; rewrite <- ?app_assoc;
  first [reflexivity | symmetry; apply app_nil_r].

Ltac close_outcome :=
  simpl;
  first
    [ left; split; [reflexivity |];
      first [ exists []; reflexivity
            | eexists [_]; reflexivity
            | eexists [_; _]; reflexivity ]
    | right; left; eexists; split; reflexivity
    | right; right; eexists _, [], _;
      split; [reflexivity |]; split; [reflexivity |];
      simpl; tauto
    | right; right; eexists _, [_], _;
      split; [reflexivity |]; split; [reflexivity |];
      simpl; intros [H | []]; discriminate H ].

Ltac close_run :=
  simpl; split; [reflexivity |];
  eexists; split; [close_trace |];
  split; [reflexivity |]; split; [reflexivity |]; close_outcome.

Lemma apply_settings_shape (self : GrowattApplySettingsButton) (w : World) :
  data (snd (apply self w)) = data w
  /\ exists evs,
       trace (snd (apply self w)) = trace w ++ evs
       /\ refresh_count evs = 0%nat
       /\ List.filter is_log_exception evs = []
       /\ apply_outcome (fst (apply self w)) evs.
Proof.
  unfold apply_settings, _apply_charge_settings, _apply_discharge_settings.
  destruct (String.eqb (_setting_type self) "charge");
    (destruct (api _); [| close_run]);
    destruct (String.eqb (device_type _) "tlx");
    repeat (repeat run_step; first [split_run | close_run]).
Qed.

(** *** Runs that reach the vendor *)

Lemma tlx_passes (f : Siblings) (p s : Z) :
  int_float_state float_of_str (power_entity f) = Ok p ->
  int_float_state float_of_str (stop_soc_entity f) = Ok s ->
  forallb truthy [power_entity f; stop_soc_entity f] = true.
Proof.
  intros Hp Hs. simpl.
  rewrite (int_float_state_truthy _ _ Hp), (int_float_state_truthy _ _ Hs).
  reflexivity.
Qed.

Lemma tlx_device_type (c : GrowattCoordinator) :
  device_type c = "tlx" ->
  String.eqb (device_type c) "tlx" = true /\ vendor_device_type c = MIN_TLX.
Proof. intros E. unfold vendor_device_type. rewrite E. split; reflexivity. Qed.

Lemma mix_device_type (c : GrowattCoordinator) :
  device_type c <> "tlx" ->
  String.eqb (device_type c) "tlx" = false /\ vendor_device_type c = SPH_MIX.
Proof.
  intros E. unfold vendor_device_type.
  destruct (String.eqb_spec (device_type c) "tlx"); [contradiction |].
  split; reflexivity.
Qed.

(** The two writes of the numbered-segment family, one after the other. *)
Lemma tlx_run (self : GrowattApplySettingsButton) (w : World) (p s : Z) :
  api (ButtonPlatform.coordinator self) = OpenApiV1 ->
  device_type (ButtonPlatform.coordinator self) = "tlx" ->
  int_float_state float_of_str (power_entity (siblings_of self)) = Ok p ->
  int_float_state float_of_str (stop_soc_entity (siblings_of self)) = Ok s ->
  exists msg,
    apply self w
    = bind (job (tlx_power_write self p)) (fun _ => job (tlx_soc_write self s))
        (emit (EvLog LogInfo msg) w).
Proof.
  unfold apply_settings, siblings_of, setting_kind, tlx_power_write,
    tlx_soc_write, _apply_charge_settings, _apply_discharge_settings.
  intros Hapi Htlx. rewrite Hapi.
  destruct (tlx_device_type _ Htlx) as [-> ->].
  destruct (String.eqb (_setting_type self) "charge");
    intros Hp Hs;
    rewrite bind_require_all, (tlx_passes _ _ _ Hp Hs), bind_lift, Hp,
      bind_lift, Hs, bind_log;
    eexists; reflexivity.
Qed.

(** What two writes in a row leave behind. *)
Lemma two_writes_run (first second : VendorCall) (w : World) :
  let before := vendor_events (trace w) in
  let o2 := vendor (before ++ [(first, None)]) second in
  bind (job first) (fun _ => job second) w =
  match vendor before first with
  | Some e => (Raise e, emit (EvVendor first (Some e)) w)
  | None =>
      (match o2 with
       | None => Ok tt
       | Some e => Raise e
       end,
       emit (EvVendor second o2) (emit (EvVendor first None) w))
  end.
Proof.
  cbv zeta. rewrite bind_job.
  destruct (vendor (vendor_events (trace w)) first); [reflexivity |].
  rewrite job_run, vendor_events_emit_vendor.
  destruct (vendor _ second); reflexivity.
Qed.

(** [async_press] in terms of the run of the [if]/[else]. *)
Lemma press_run (self : GrowattApplySettingsButton) (w : World) :
  press self w =
  match apply self w with
  | (Ok _, w') => (Ok tt, emit EvRequestRefresh w')
  | (Raise e, w') =>
      (Raise (surfaced (_setting_type self) e),
       match e with
       | GrowattV1ApiError message =>
           emit
             (EvLog LogException
                ("Error applying " +:+ _setting_type self +:+ " settings: "
                 +:+ message)) w'
       | _ => w'
       end)
  end.
Proof.
  unfold async_press, press_body, bind.
  destruct (apply self w) as [[[] | e] w']; [reflexivity |].
  destruct e; reflexivity.
Qed.

Lemma refresh_count_app (tr1 tr2 : list Event) :
  refresh_count (tr1 ++ tr2) = (refresh_count tr1 + refresh_count tr2)%nat.
Proof. unfold refresh_count. rewrite List.filter_app. apply length_app. Qed.

Lemma applied_writes_app (tr1 tr2 : list Event) :
  applied_writes (tr1 ++ tr2) = applied_writes tr1 ++ applied_writes tr2.
Proof. unfold applied_writes. apply omap_app. Qed.

Lemma accepted_outcome (calls : list VendorCall) (c : VendorCall)
  (o : option exn) :
  In (c, o) (accepted calls) -> o = None /\ In c calls.
Proof.
  unfold accepted. rewrite in_map_iff. intros (c' & E & Hin).
  inversion E; subst. auto.
Qed.

(** *** Claims about a press *)

(** C1, for an [OpenApiV1] client. For every apply-settings press (charge or discharge,
    either device family) whose coordinator holds an [OpenApiV1] client:
    if any of the sibling values required for the family is absent, the
    press raises the validation error, whose message lists the
    identifier of every absent value, and it does so before any vendor
    call: the error log entry is the only event, and the mapping is
    untouched. *)
Theorem missing_values_rejected_before_any_write
  (self : GrowattApplySettingsButton) (w : World) :
  api (ButtonPlatform.coordinator self) = OpenApiV1 ->
  missing_fields self <> [] ->
  let msg :=
    "Could not find all " +:+ setting_kind self
    +:+ " setting entities. Missing: " +:+ join ", " (missing_fields self) in
  press self w
  = (Raise (HomeAssistantError msg None),
     {| data := data w; trace := trace w ++ [EvLog LogError msg] |})
  /\ vendor_events (trace (snd (press self w))) = vendor_events (trace w)
  /\ (forall ident,
        In ident (missing_fields self) <->
        In (None, ident) (required_fields self)).
Proof.
  intros Hapi Hm msg.
  assert (press self w
          = (Raise (HomeAssistantError msg None),
             {| data := data w; trace := trace w ++ [EvLog LogError msg] |}))
    as Hrun.
  { rewrite press_run, (apply_settings_missing self w Hapi Hm). reflexivity. }
  split; [exact Hrun |]. split.
  - rewrite Hrun. simpl. rewrite vendor_events_app. simpl. apply app_nil_r.
  - intros ident. unfold missing_fields. rewrite in_map_iff. split.
    + intros ([e i] & E & Hin). simpl in E. subst i.
      apply List.filter_In in Hin. destruct Hin as [Hin He].
      destruct e; [discriminate | exact Hin].
    + intros Hin. exists (None, ident). split; [reflexivity |].
      apply List.filter_In. split; [exact Hin | reflexivity].
Qed.

(** C2. With an [OpenApiV1] client and the sibling values present and
    readable: on the TLX family, applying charge settings issues
    exactly two [write_parameter] calls, first the charge power and
    then, the first one accepted, the charge stop SOC, each with every
    other field zeroed; on the MIX family it issues exactly one
    [write_time_segment] call that carries power, stop SOC, mains flag,
    start and end hour and minute, enabled flag and segment 1. *)
Theorem charge_writes_by_family (self : GrowattApplySettingsButton) (w : World) :
  let c := ButtonPlatform.coordinator self in
  let f := find_siblings (hass self) (device_id c) "charge" in
  let before := vendor_events (trace w) in
  let after := vendor_events (trace (snd (apply_charge self w))) in
  api c = OpenApiV1 ->
  (forall p s,
     device_type c = "tlx" ->
     int_float_state float_of_str (power_entity f) = Ok p ->
     int_float_state float_of_str (stop_soc_entity f) = Ok s ->
     let first :=
       write_parameter (device_id c) MIN_TLX "charge_power"
         {| cd_charge_power := p; cd_charge_stop_soc := 0;
            cd_discharge_power := 0; cd_discharge_stop_soc := 0;
            cd_ac_charge_enabled := false |} in
     let second :=
       write_parameter (device_id c) MIN_TLX "charge_stop_soc"
         {| cd_charge_power := 0; cd_charge_stop_soc := s;
            cd_discharge_power := 0; cd_discharge_stop_soc := 0;
            cd_ac_charge_enabled := false |} in
     vendor before first = None ->
     after
     = before
       ++ [(first, None); (second, vendor (before ++ [(first, None)]) second)])
  /\ (forall start_time end_time enabled p s ac,
        device_type c <> "tlx" ->
        time_state time_fromisoformat (start_entity f) = Ok start_time ->
        time_state time_fromisoformat (end_entity f) = Ok end_time ->
        on_state (enabled_entity f) = Ok enabled ->
        int_float_state float_of_str (power_entity f) = Ok p ->
        int_float_state float_of_str (stop_soc_entity f) = Ok s ->
        int_of (dict_get (data w) "acChargeEnable" (VInt 0)) = Ok ac ->
        let call :=
          write_time_segment (device_id c) SPH_MIX "mix_ac_charge_time_period"
            (ChargeSegment
               {| mc_charge_power := p;
                  mc_charge_stop_soc := s;
                  mc_mains_enabled := negb (ac =? 0);
                  mc_start_hour := hour start_time;
                  mc_start_minute := minute start_time;
                  mc_end_hour := hour end_time;
                  mc_end_minute := minute end_time;
                  mc_enabled := enabled;
                  mc_segment_id := 1 |}) in
        after = before ++ [(call, vendor before call)]).
Proof.
  intros c f before after Hapi. subst after before.
  unfold _apply_charge_settings. fold c. fold f. rewrite Hapi. split.
  - intros p s Htlx Hp Hs Hfirst.
    destruct (tlx_device_type _ Htlx) as [-> ->].
    rewrite bind_require_all, (tlx_passes _ _ _ Hp Hs), bind_lift, Hp,
      bind_lift, Hs, bind_log.
    rewrite two_writes_run. cbv zeta.
    rewrite !vendor_events_emit_log, Hfirst. simpl snd.
    rewrite !vendor_events_emit_vendor, vendor_events_emit_log.
    rewrite <- app_assoc. reflexivity.
  - intros start_time end_time enabled p s ac Hmix Ht1 Ht2 Hen Hp Hs Hac.
    destruct (mix_device_type _ Hmix) as [-> ->].
    rewrite bind_require_all.
    replace (forallb truthy _) with true.
    2: { simpl.
         rewrite (time_state_truthy _ _ Ht1), (time_state_truthy _ _ Ht2),
           (on_state_truthy _ _ Hen), (int_float_state_truthy _ _ Hp),
           (int_float_state_truthy _ _ Hs). reflexivity. }
    rewrite bind_lift, Ht1, bind_lift, Ht2, bind_lift, Hen, bind_lift, Hp,
      bind_lift, Hs, bind_coordinator_data, bind_lift, Hac, bind_log.
    rewrite job_run, vendor_events_emit_log.
    destruct (vendor (vendor_events (trace w)) _);
      simpl snd; rewrite vendor_events_emit_vendor, vendor_events_emit_log;
      reflexivity.
Qed.

(** C3. On the TLX family, when the first [write_parameter] call of a
    charge or discharge press is accepted and the second one raises, the
    error reaches the caller with the first write still applied: the
    press made these two calls and no other one, and asked for no
    refresh. *)
Theorem tlx_second_write_failure_keeps_first
  (self : GrowattApplySettingsButton) (w : World) (p s : Z) (e : exn) :
  let first := tlx_power_write self p in
  let second := tlx_soc_write self s in
  let before := vendor_events (trace w) in
  let after := trace (snd (press self w)) in
  api (ButtonPlatform.coordinator self) = OpenApiV1 ->
  device_type (ButtonPlatform.coordinator self) = "tlx" ->
  int_float_state float_of_str (power_entity (siblings_of self)) = Ok p ->
  int_float_state float_of_str (stop_soc_entity (siblings_of self)) = Ok s ->
  vendor before first = None ->
  vendor (before ++ [(first, None)]) second = Some e ->
  fst (press self w) = Raise (surfaced (_setting_type self) e)
  /\ vendor_events after = before ++ [(first, None); (second, Some e)]
  /\ applied_writes after = applied_writes (trace w) ++ [first]
  /\ refresh_count after = refresh_count (trace w).
Proof.
  intros first second before after Hapi Htlx Hp Hs H1 H2. subst after.
  destruct (tlx_run self w p s Hapi Htlx Hp Hs) as [msg Hrun].
  rewrite press_run, Hrun, two_writes_run. cbv zeta.
  fold first. fold second.
  rewrite !vendor_events_emit_log. fold before. rewrite H1, H2.
  simpl fst. split; [reflexivity |].
  destruct e; simpl;
    rewrite ?vendor_events_app, ?applied_writes_app, ?refresh_count_app;
    simpl; rewrite ?app_nil_r, <- ?app_assoc, ?Nat.add_0_r;
    repeat split; reflexivity.
Qed.

(** Every press: the events of the [if]/[else], then either the refresh
    request or, for a vendor API error, the exception log entry. *)
Lemma press_shape (self : GrowattApplySettingsButton) (w : World) :
  exists evs,
    refresh_count evs = 0%nat
    /\ List.filter is_log_exception evs = []
    /\ apply_outcome (fst (apply self w)) evs
    /\ press self w =
       match fst (apply self w) with
       | Ok _ =>
           (Ok tt,
            {| data := data w;
               trace := trace w ++ evs ++ [EvRequestRefresh] |})
       | Raise e =>
           (Raise (surfaced (_setting_type self) e),
            {| data := data w;
               trace :=
                 trace w ++ evs ++
                 match e with
                 | GrowattV1ApiError message =>
                     [EvLog LogException
                        ("Error applying " +:+ _setting_type self
                         +:+ " settings: " +:+ message)]
                 | _ => []
                 end |})
       end.
Proof.
  destruct (apply_settings_shape self w) as (Hd & evs & Ht & Hr & Hl & Ho).
  exists evs. repeat (split; [assumption |]).
  rewrite press_run.
  destruct (apply self w) as [[[] | e] w']; simpl in *.
  - unfold emit. rewrite Hd, Ht, <- app_assoc. reflexivity.
  - destruct w' as [d' tr']. simpl in *. subst d' tr'.
    destruct e; unfold emit; simpl; rewrite <- ?app_assoc, ?app_nil_r;
      reflexivity.
Qed.

(** The refresh request against the result of a press. *)
Lemma press_refresh_shape (self : GrowattApplySettingsButton) (w : World) :
  exists evs,
    trace (snd (press self w)) = trace w ++ evs
    /\ match fst (press self w) with
       | Ok _ =>
           exists before calls,
             evs = before ++ [EvRequestRefresh]
             /\ refresh_count before = 0%nat
             /\ vendor_events before = accepted calls
             /\ refresh_count evs = 1%nat
       | Raise _ => refresh_count evs = 0%nat
       end
    /\ (forall c e,
          In (c, Some e) (vendor_events evs) ->
          refresh_count evs = 0%nat
          /\ exists e', fst (press self w) = Raise e').
Proof.
  destruct (press_shape self w) as (evs & Hr & Hl & Ho & Hrun).
  rewrite Hrun. clear Hrun.
  destruct (fst (apply self w)) as [[] | e]; simpl.
  - destruct Ho as [[_ [calls Hc]] | [(e & He & _) | (e & cs & c & He & _)]];
      try discriminate.
    exists (evs ++ [EvRequestRefresh]). split; [reflexivity |]. split.
    + exists evs, calls. repeat split; auto.
      rewrite refresh_count_app, Hr. reflexivity.
    + intros c e Hin. rewrite vendor_events_app, Hc in Hin. simpl in Hin.
      rewrite app_nil_r in Hin.
      apply accepted_outcome in Hin. destruct Hin; discriminate.
  - eexists. split; [reflexivity |].
    assert (refresh_count
              (evs ++
               match e with
               | GrowattV1ApiError message =>
                   [EvLog LogException
                      ("Error applying " +:+ _setting_type self
                       +:+ " settings: " +:+ message)]
               | _ => []
               end) = 0%nat) as H0.
    { rewrite refresh_count_app, Hr. destruct e; reflexivity. }
    split; [exact H0 |]. intros c e0 _. split; [exact H0 | eauto].
Qed.

(** The single write of the other family, after the info log entry. *)
Lemma mix_run (self : GrowattApplySettingsButton) (w : World)
  (start_time end_time : time) (enabled : bool) (p s ac : Z) :
  api (ButtonPlatform.coordinator self) = OpenApiV1 ->
  device_type (ButtonPlatform.coordinator self) <> "tlx" ->
  time_state time_fromisoformat (start_entity (siblings_of self))
  = Ok start_time ->
  time_state time_fromisoformat (end_entity (siblings_of self))
  = Ok end_time ->
  on_state (enabled_entity (siblings_of self)) = Ok enabled ->
  int_float_state float_of_str (power_entity (siblings_of self)) = Ok p ->
  int_float_state float_of_str (stop_soc_entity (siblings_of self)) = Ok s ->
  (_setting_type self = "charge" ->
   int_of (dict_get (data w) "acChargeEnable" (VInt 0)) = Ok ac) ->
  exists msg,
    apply self w
    = job (mix_write self start_time end_time enabled p s ac)
        (emit (EvLog LogInfo msg) w).
Proof.
  unfold apply_settings, siblings_of, setting_kind, mix_write,
    _apply_charge_settings, _apply_discharge_settings.
  intros Hapi Hmix. rewrite Hapi.
  destruct (mix_device_type _ Hmix) as [-> ->].
  destruct (String.eqb_spec (_setting_type self) "charge") as [E | E];
    intros Ht1 Ht2 Hen Hp Hs Hac;
    rewrite bind_require_all;
    (replace (forallb truthy _) with true
      by (simpl;
          rewrite (time_state_truthy _ _ Ht1), (time_state_truthy _ _ Ht2),
            (on_state_truthy _ _ Hen), (int_float_state_truthy _ _ Hp),
            (int_float_state_truthy _ _ Hs); reflexivity));
    rewrite bind_lift, Ht1, bind_lift, Ht2, bind_lift, Hen, bind_lift, Hp,
      bind_lift, Hs.
  - rewrite bind_coordinator_data, bind_lift, (Hac E), bind_log.
    eexists. reflexivity.
  - rewrite bind_log. eexists. reflexivity.
Qed.

(** C4. Every press asks the coordinator to refresh at most once; it
    does so exactly when it returns, and then the request is the last
    event, after vendor calls that were all accepted. A press that
    raises, be it the validation error or a vendor call that raised,
    asks for no refresh. And a press does return and ask for the
    refresh, once and as its last event, when nothing stands in its
    way: with an [OpenApiV1] client, the sibling values present and
    readable and every write accepted, after the two writes of the TLX
    family or the single write of the MIX family; with any other client,
    after no write at all. *)
Theorem refresh_only_after_success (self : GrowattApplySettingsButton)
  (w : World) :
  let c := ButtonPlatform.coordinator self in
  let f := siblings_of self in
  let before := vendor_events (trace w) in
  (exists evs,
     trace (snd (press self w)) = trace w ++ evs
     /\ match fst (press self w) with
        | Ok _ =>
            exists writes calls,
              evs = writes ++ [EvRequestRefresh]
              /\ refresh_count writes = 0%nat
              /\ vendor_events writes = accepted calls
              /\ refresh_count evs = 1%nat
        | Raise _ => refresh_count evs = 0%nat
        end
     /\ (forall call e,
           In (call, Some e) (vendor_events evs) ->
           refresh_count evs = 0%nat
           /\ exists e', fst (press self w) = Raise e'))
  /\ (forall p s,
        api c = OpenApiV1 ->
        device_type c = "tlx" ->
        int_float_state float_of_str (power_entity f) = Ok p ->
        int_float_state float_of_str (stop_soc_entity f) = Ok s ->
        vendor before (tlx_power_write self p) = None ->
        vendor (before ++ [(tlx_power_write self p, None)])
          (tlx_soc_write self s) = None ->
        exists msg,
          press self w
          = (Ok tt,
             {| data := data w;
                trace :=
                  trace w
                  ++ [ EvLog LogInfo msg;
                       EvVendor (tlx_power_write self p) None;
                       EvVendor (tlx_soc_write self s) None;
                       EvRequestRefresh ] |}))
  /\ (forall start_time end_time enabled p s ac,
        api c = OpenApiV1 ->
        device_type c <> "tlx" ->
        time_state time_fromisoformat (start_entity f) = Ok start_time ->
        time_state time_fromisoformat (end_entity f) = Ok end_time ->
        on_state (enabled_entity f) = Ok enabled ->
        int_float_state float_of_str (power_entity f) = Ok p ->
        int_float_state float_of_str (stop_soc_entity f) = Ok s ->
        (_setting_type self = "charge" ->
         int_of (dict_get (data w) "acChargeEnable" (VInt 0)) = Ok ac) ->
        vendor before (mix_write self start_time end_time enabled p s ac)
        = None ->
        exists msg,
          press self w
          = (Ok tt,
             {| data := data w;
                trace :=
                  trace w
                  ++ [ EvLog LogInfo msg;
                       EvVendor
                         (mix_write self start_time end_time enabled p s ac)
                         None;
                       EvRequestRefresh ] |}))
  /\ (api c = ClassicApi ->
      press self w
      = (Ok tt, {| data := data w; trace := trace w ++ [EvRequestRefresh] |})).
Proof.
  intros c f before. subst c f before.
  split; [apply press_refresh_shape |].
  split; [| split].
  - intros p s Hapi Htlx Hp Hs H1 H2.
    destruct (tlx_run self w p s Hapi Htlx Hp Hs) as [msg Hrun].
    exists msg.
    rewrite press_run, Hrun, two_writes_run. cbv zeta.
    rewrite !vendor_events_emit_log, H1, H2.
    unfold emit. simpl. rewrite <- !app_assoc. reflexivity.
  - intros start_time end_time enabled p s ac Hapi Hmix Ht1 Ht2 Hen Hp Hs
      Hac H1.
    destruct (mix_run self w start_time end_time enabled p s ac Hapi Hmix
                Ht1 Ht2 Hen Hp Hs Hac) as [msg Hrun].
    exists msg.
    rewrite press_run, Hrun, job_run, vendor_events_emit_log, H1.
    unfold emit. simpl. rewrite <- !app_assoc. reflexivity.
  - intros Hapi. rewrite press_run.
    unfold apply_settings, _apply_charge_settings, _apply_discharge_settings.
    rewrite Hapi. destruct (String.eqb _ "charge"); reflexivity.
Qed.

(** C5. A vendor API error raised by a call of a press is caught once:
    the press raises one [HomeAssistantError] whose message names the
    setting type and the text of the error (and whose cause is the
    error), with one exception log entry; the failed call is the last
    vendor call of the press and was not issued before in it, so
    nothing is retried. *)
Theorem vendor_error_surfaces_once (self : GrowattApplySettingsButton)
  (w : World) (evs : list Event) (c : VendorCall) (message : string) :
  trace (snd (press self w)) = trace w ++ evs ->
  In (c, Some (GrowattV1ApiError message)) (vendor_events evs) ->
  fst (press self w)
  = Raise
      (HomeAssistantError
         ("Error applying " +:+ _setting_type self +:+ " settings: "
          +:+ message)
         (Some (GrowattV1ApiError message)))
  /\ (exists calls,
        vendor_events evs
        = accepted calls ++ [(c, Some (GrowattV1ApiError message))]
        /\ ~ In c calls)
  /\ length (List.filter is_log_exception evs) = 1%nat
  /\ refresh_count evs = 0%nat.
Proof.
  destruct (press_shape self w) as (evs0 & Hr & Hl & Ho & Hrun).
  rewrite Hrun. clear Hrun.
  destruct (fst (apply self w)) as [[] | e]; simpl; intros Ht Hin;
    apply app_inv_head in Ht; subst evs.
  - exfalso.
    destruct Ho as [[_ [calls Hc]] | [(e & He & _) | (e & cs & c0 & He & _)]];
      try discriminate.
    rewrite vendor_events_app, Hc in Hin. simpl in Hin.
    rewrite app_nil_r in Hin.
    apply accepted_outcome in Hin. destruct Hin; discriminate.
  - assert (vendor_events
              (evs0 ++
               match e with
               | GrowattV1ApiError message0 =>
                   [EvLog LogException
                      ("Error applying " +:+ _setting_type self
                       +:+ " settings: " +:+ message0)]
               | _ => []
               end) = vendor_events evs0) as Hv.
    { rewrite vendor_events_app. destruct e; simpl; apply app_nil_r. }
    rewrite Hv in *.
    destruct Ho as [[He _] | [(e1 & He & Hnone) | (e1 & cs & c0 & He & Hc & Hn)]];
      try discriminate.
    + rewrite Hnone in Hin. destruct Hin.
    + inversion He; subst e1. rewrite Hc in Hin.
      apply in_app_or in Hin. destruct Hin as [Hin | [Hin | []]].
      * apply accepted_outcome in Hin. destruct Hin; discriminate.
      * inversion Hin; subst. simpl.
        split; [reflexivity |].
        split; [exists cs; auto |].
        rewrite List.filter_app, Hl, refresh_count_app, Hr. simpl. auto.
Qed.

(** *** More on a press *)

Local Abbreviation apply_discharge :=
  (_apply_discharge_settings float_of_str time_fromisoformat vendor).

(** X1. With an [OpenApiV1] client and the sibling values present and
    readable, applying discharge settings mirrors the charge side: on
    the TLX family two [write_parameter] calls, the discharge power and
    then, the first one accepted, the discharge stop SOC, each with
    every other field zeroed; on the MIX family one
    [write_time_segment] call for segment 1, which carries no mains
    flag and does not read [acChargeEnable]. *)
Theorem discharge_writes_by_family (self : GrowattApplySettingsButton)
  (w : World) :
  let c := ButtonPlatform.coordinator self in
  let f := find_siblings (hass self) (device_id c) "discharge" in
  let before := vendor_events (trace w) in
  let after := vendor_events (trace (snd (apply_discharge self w))) in
  api c = OpenApiV1 ->
  (forall p s,
     device_type c = "tlx" ->
     int_float_state float_of_str (power_entity f) = Ok p ->
     int_float_state float_of_str (stop_soc_entity f) = Ok s ->
     let first :=
       write_parameter (device_id c) MIN_TLX "discharge_power"
         {| cd_charge_power := 0; cd_charge_stop_soc := 0;
            cd_discharge_power := p; cd_discharge_stop_soc := 0;
            cd_ac_charge_enabled := false |} in
     let second :=
       write_parameter (device_id c) MIN_TLX "discharge_stop_soc"
         {| cd_charge_power := 0; cd_charge_stop_soc := 0;
            cd_discharge_power := 0; cd_discharge_stop_soc := s;
            cd_ac_charge_enabled := false |} in
     vendor before first = None ->
     after
     = before
       ++ [(first, None); (second, vendor (before ++ [(first, None)]) second)])
  /\ (forall start_time end_time enabled p s,
        device_type c <> "tlx" ->
        time_state time_fromisoformat (start_entity f) = Ok start_time ->
        time_state time_fromisoformat (end_entity f) = Ok end_time ->
        on_state (enabled_entity f) = Ok enabled ->
        int_float_state float_of_str (power_entity f) = Ok p ->
        int_float_state float_of_str (stop_soc_entity f) = Ok s ->
        let call :=
          write_time_segment (device_id c) SPH_MIX
            "mix_ac_discharge_time_period"
            (DischargeSegment
               {| md_discharge_power := p;
                  md_discharge_stop_soc := s;
                  md_start_hour := hour start_time;
                  md_start_minute := minute start_time;
                  md_end_hour := hour end_time;
                  md_end_minute := minute end_time;
                  md_enabled := enabled;
                  md_segment_id := 1 |}) in
        after = before ++ [(call, vendor before call)]).
Proof.
  intros c f before after Hapi. subst after before.
  unfold _apply_discharge_settings. fold c. fold f. rewrite Hapi. split.
  - intros p s Htlx Hp Hs Hfirst.
    destruct (tlx_device_type _ Htlx) as [-> ->].
    rewrite bind_require_all, (tlx_passes _ _ _ Hp Hs), bind_lift, Hp,
      bind_lift, Hs, bind_log.
    rewrite two_writes_run. cbv zeta.
    rewrite !vendor_events_emit_log, Hfirst. simpl snd.
    rewrite !vendor_events_emit_vendor, vendor_events_emit_log.
    rewrite <- app_assoc. reflexivity.
  - intros start_time end_time enabled p s Hmix Ht1 Ht2 Hen Hp Hs.
    destruct (mix_device_type _ Hmix) as [-> ->].
    rewrite bind_require_all.
    replace (forallb truthy _) with true.
    2: { simpl.
         rewrite (time_state_truthy _ _ Ht1), (time_state_truthy _ _ Ht2),
           (on_state_truthy _ _ Hen), (int_float_state_truthy _ _ Hp),
           (int_float_state_truthy _ _ Hs). reflexivity. }
    rewrite bind_lift, Ht1, bind_lift, Ht2, bind_lift, Hen, bind_lift, Hp,
      bind_lift, Hs, bind_log.
    rewrite job_run, vendor_events_emit_log.
    destruct (vendor (vendor_events (trace w)) _);
      simpl snd; rewrite vendor_events_emit_vendor, vendor_events_emit_log;
      reflexivity.
Qed.

(** X2. On the TLX family, when the first [write_parameter] call of a
    press raises, the second one is never attempted: the press made
    that one call only, nothing was applied, the error reaches the
    caller and no refresh is requested. *)
Theorem tlx_first_write_failure_stops
  (self : GrowattApplySettingsButton) (w : World) (p s : Z) (e : exn) :
  let first := tlx_power_write self p in
  let before := vendor_events (trace w) in
  let after := trace (snd (press self w)) in
  api (ButtonPlatform.coordinator self) = OpenApiV1 ->
  device_type (ButtonPlatform.coordinator self) = "tlx" ->
  int_float_state float_of_str (power_entity (siblings_of self)) = Ok p ->
  int_float_state float_of_str (stop_soc_entity (siblings_of self)) = Ok s ->
  vendor before first = Some e ->
  fst (press self w) = Raise (surfaced (_setting_type self) e)
  /\ vendor_events after = before ++ [(first, Some e)]
  /\ applied_writes after = applied_writes (trace w)
  /\ refresh_count after = refresh_count (trace w).
Proof.
  intros first before after Hapi Htlx Hp Hs H1. subst after.
  destruct (tlx_run self w p s Hapi Htlx Hp Hs) as [msg Hrun].
  rewrite press_run, Hrun, two_writes_run. cbv zeta.
  fold first.
  rewrite !vendor_events_emit_log. fold before. rewrite H1.
  simpl fst. split; [reflexivity |].
  destruct e; simpl;
    rewrite ?vendor_events_app, ?applied_writes_app, ?refresh_count_app;
    simpl; rewrite ?app_nil_r, <- ?app_assoc, ?Nat.add_0_r;
    repeat split; reflexivity.
Qed.

Ltac close_calls :=
  simpl; eexists; split; [close_trace |];
  split; [simpl; lia |];
  split; [simpl; repeat constructor; simpl; auto |];
  first [reflexivity | discriminate].

(** The vendor calls of a run, counted and told apart. *)
Lemma apply_settings_calls (self : GrowattApplySettingsButton) (w : World) :
  exists evs,
    trace (snd (apply self w)) = trace w ++ evs
    /\ (length (vendor_events evs)
        <= if String.eqb (device_type (ButtonPlatform.coordinator self)) "tlx"
           then 2 else 1)%nat
    /\ Forall (fun p => call_of_press self (fst p)) (vendor_events evs)
    /\ (api (ButtonPlatform.coordinator self) = ClassicApi ->
        vendor_events evs = []).
Proof.
  unfold apply_settings, _apply_charge_settings, _apply_discharge_settings,
    vendor_device_type.
  destruct (String.eqb (_setting_type self) "charge");
    (destruct (api _); [| close_calls]);
    destruct (String.eqb_spec (device_type (ButtonPlatform.coordinator self))
                "tlx");
    repeat (repeat run_step; first [split_run | close_calls]).
Qed.

(** X4. What a press never does. It leaves the coordinator's mapping as
    it is; it issues at most two vendor calls on a ["tlx"] device and at
    most one on any other device, none at all when the client is not an
    [OpenApiV1] instance; and every call goes to the coordinator's own
    device id, as a [write_parameter] of a MIN/TLX device on ["tlx"]
    and as a [write_time_segment] of an SPH/MIX device otherwise. *)
Theorem press_calls_own_device (self : GrowattApplySettingsButton)
  (w : World) :
  exists evs,
    trace (snd (press self w)) = trace w ++ evs
    /\ data (snd (press self w)) = data w
    /\ (length (vendor_events evs)
        <= if String.eqb (device_type (ButtonPlatform.coordinator self)) "tlx"
           then 2 else 1)%nat
    /\ (forall c o, In (c, o) (vendor_events evs) -> call_of_press self c)
    /\ (api (ButtonPlatform.coordinator self) = ClassicApi ->
        vendor_events evs = []).
Proof.
  destruct (apply_settings_calls self w) as (evs & Ht & Hlen & Hall & Hcl).
  destruct (apply_settings_shape self w) as (Hd & _).
  rewrite press_run.
  assert (forall extra,
            vendor_events extra = [] ->
            (length (vendor_events (evs ++ extra))
             <= if String.eqb (device_type (ButtonPlatform.coordinator self))
                     "tlx"
                then 2 else 1)%nat
            /\ (forall c o,
                  In (c, o) (vendor_events (evs ++ extra)) ->
                  call_of_press self c)
            /\ (api (ButtonPlatform.coordinator self) = ClassicApi ->
                vendor_events (evs ++ extra) = [])) as Hextra.
  { intros extra Hx. rewrite vendor_events_app, Hx, app_nil_r.
    split; [exact Hlen |]. split; [| exact Hcl].
    intros c o Hin. rewrite Forall_forall in Hall.
    apply (Hall (c, o)). apply list_elem_of_In. exact Hin. }
  destruct (apply self w) as [[[] | e] w']; simpl in *.
  - exists (evs ++ [EvRequestRefresh]).
    split; [rewrite Ht, <- app_assoc; reflexivity |].
    split; [exact Hd |]. apply Hextra. reflexivity.
  - destruct e; simpl;
      try (exists (evs ++ []); rewrite app_nil_r;
           split; [exact Ht |]; split; [exact Hd |];
           rewrite <- (app_nil_r evs); apply Hextra; reflexivity).
    eexists (evs ++ [_]).
    split; [rewrite Ht, <- app_assoc; reflexivity |].
    split; [exact Hd |]. apply Hextra. reflexivity.
Qed.

(** *** Errors before the vendor is reached *)

Lemma int_of_float_cases (f : spec_float) :
  (exists n, int_of_float f = Ok n)
  \/ int_of_float f = Raise ValueError
  \/ int_of_float f = Raise OverflowError.
Proof. destruct f; simpl; eauto. Qed.

Lemma int_of_cases (v : Value) :
  (exists n, int_of v = Ok n)
  \/ int_of v = Raise TypeError
  \/ int_of v = Raise ValueError
  \/ int_of v = Raise OverflowError.
Proof.
  destruct v as [| b | n | f | s]; simpl; eauto.
  - destruct (int_of_float_cases f) as [H | [H | H]]; eauto.
  - destruct (int_of_str_cases s) as [H | H]; eauto.
Qed.

Lemma int_float_state_cases (st : State) :
  (exists n, int_float_state float_of_str (Some st) = Ok n)
  \/ int_float_state float_of_str (Some st) = Raise ValueError
  \/ int_float_state float_of_str (Some st) = Raise OverflowError.
Proof.
  unfold int_float_state. simpl.
  destruct (float_of_str (state st)) as [f |]; simpl; [| eauto].
  apply int_of_float_cases.
Qed.

Lemma time_state_cases (st : State) :
  (exists t, time_state time_fromisoformat (Some st) = Ok t)
  \/ time_state time_fromisoformat (Some st) = Raise ValueError.
Proof.
  unfold time_state. simpl.
  destruct (time_fromisoformat (state st)); simpl; eauto.
Qed.

Ltac split_conversion :=
  match goal with
  | |- context [int_float_state float_of_str (Some ?st)] =>
      destruct (int_float_state_cases st) as [[? ->] | [-> | ->]]
  | |- context [time_state time_fromisoformat (Some ?st)] =>
      destruct (time_state_cases st) as [[? ->] | ->]
  | |- context [int_of ?v] =>
      destruct (int_of_cases v) as [[? ->] | [-> | [-> | ->]]]
  | |- context [match vendor ?h ?c with _ => _ end] =>
      destruct (vendor h c)
  end.

Ltac close_quiet :=
  first
    [ left; simpl; eexists; split; [close_trace |]; simpl; discriminate
    | right; eexists; split; [| reflexivity]; tauto ].

(** With an [OpenApiV1] client and every required value present, a run
    either reaches the vendor or stops at a conversion, raising what the
    conversion raised and leaving no event behind. *)
Lemma apply_settings_conversions (self : GrowattApplySettingsButton)
  (w : World) :
  api (ButtonPlatform.coordinator self) = OpenApiV1 ->
  missing_fields self = [] ->
  (exists evs,
     trace (snd (apply self w)) = trace w ++ evs
     /\ vendor_events evs <> [])
  \/ (exists e,
        (e = ValueError \/ e = OverflowError \/ e = TypeError)
        /\ apply self w = (Raise e, w)).
Proof.
  unfold apply_settings, missing_fields, required_fields, siblings_of,
    setting_kind, _apply_charge_settings, _apply_discharge_settings.
  intros Hapi. rewrite Hapi.
  destruct (String.eqb (_setting_type self) "charge");
    destruct (String.eqb (device_type _) "tlx");
    match goal with
    | |- context [find_siblings ?h ?d ?k] =>
        destruct (find_siblings h d k) as [[?|] [?|] [?|] [?|] [?|]]
    end;
    simpl; intros Hm; try discriminate Hm; clear Hm;
    rewrite bind_require_all; cbn [forallb truthy andb];
    unfold on_state, state_of; cbn [rbind];
    repeat (repeat run_step; first [split_conversion | close_quiet]).
Qed.

(** X3. A press that raises without having reached the vendor ends in
    one of two ways. Either a required sibling value is absent: then it
    raises the validation error and the error log entry is its only
    event. Or every required value is present and a conversion of one
    of them (or of [acChargeEnable]) failed: then the conversion's own
    [ValueError], [OverflowError] or [TypeError] reaches the caller as
    it is, not as a [HomeAssistantError], and the press leaves no event
    at all, not even a log entry. *)
Theorem press_failure_before_any_call (self : GrowattApplySettingsButton)
  (w : World) (e : exn) :
  fst (press self w) = Raise e ->
  vendor_events (trace (snd (press self w))) = vendor_events (trace w) ->
  let msg :=
    "Could not find all " +:+ setting_kind self
    +:+ " setting entities. Missing: " +:+ join ", " (missing_fields self) in
  (missing_fields self <> []
   /\ press self w
      = (Raise (HomeAssistantError msg None),
         {| data := data w; trace := trace w ++ [EvLog LogError msg] |}))
  \/ (missing_fields self = []
      /\ (e = ValueError \/ e = OverflowError \/ e = TypeError)
      /\ press self w = (Raise e, w)).
Proof.
  intros Hr Hv msg.
  destruct (api (ButtonPlatform.coordinator self)) eqn:Hapi.
  2: { exfalso. revert Hr. rewrite press_run.
       unfold apply_settings, _apply_charge_settings,
         _apply_discharge_settings.
       rewrite Hapi. destruct (String.eqb _ "charge"); discriminate. }
  destruct (decide (missing_fields self = [])) as [Hm | Hm].
  - right. split; [exact Hm |].
    destruct (apply_settings_conversions self w Hapi Hm)
      as [(evs & Ht & Hne) | (e' & He' & Hrun)].
    + exfalso. apply Hne. revert Hv. rewrite press_run.
      destruct (apply self w) as [[[] | e0] w']; simpl in *.
      * rewrite vendor_events_app, Ht, vendor_events_app. simpl.
        rewrite app_nil_r. intros Hv.
        rewrite <- (app_nil_r (vendor_events (trace w))) in Hv at 2.
        apply app_inv_head in Hv. exact Hv.
      * assert (vendor_events
                  (trace
                     match e0 with
                     | GrowattV1ApiError message =>
                         emit
                           (EvLog LogException
                              ("Error applying " +:+ _setting_type self
                               +:+ " settings: " +:+ message)) w'
                     | _ => w'
                     end) = vendor_events (trace w')) as ->.
        { destruct e0; try reflexivity. apply vendor_events_emit_log. }
        rewrite Ht, vendor_events_app. intros Hv.
        rewrite <- (app_nil_r (vendor_events (trace w))) in Hv at 2.
        apply app_inv_head in Hv. exact Hv.
    + revert Hr. rewrite press_run, Hrun.
      destruct He' as [-> | [-> | ->]]; simpl; intros Hr;
        inversion Hr; subst; auto.
  - left. split; [exact Hm |].
    rewrite press_run, (apply_settings_missing self w Hapi Hm). reflexivity.
Qed.

End ButtonProperties.

(** ** The claims on the sample installation *)

Import Samples.

(** The sample discharge press of a MIX device whose stop-SOC number has
    no state. *)
Lemma missing_values_rejected_before_any_write_witness :
  api mix_coordinator = OpenApiV1
  /\ missing_fields (button (partial_hass "MIX0001") mix_coordinator "discharge")
     <> []
  /\ async_press float_of_whole fromisoformat_hms accepting
       (button (partial_hass "MIX0001") mix_coordinator "discharge")
       empty_world
     = (Raise
          (HomeAssistantError
             "Could not find all discharge setting entities. Missing: number.MIX0001_discharge_stop_soc"
             None),
        {| data := ∅;
           trace :=
             [EvLog LogError
                "Could not find all discharge setting entities. Missing: number.MIX0001_discharge_stop_soc"]
        |}).
Proof.
  assert (missing_fields
            (button (partial_hass "MIX0001") mix_coordinator "discharge")
          <> []) as Hm by (vm_compute; discriminate).
  split; [reflexivity |]. split; [exact Hm |].
  pose proof (missing_values_rejected_before_any_write float_of_whole
                fromisoformat_hms accepting
                (button (partial_hass "MIX0001") mix_coordinator "discharge")
                empty_world eq_refl Hm) as H.
  cbv zeta in H. destruct H as [H _].
  etransitivity; [exact H |]. vm_compute. reflexivity.
Defined.

(** C1 as stated fails when the coordinator's client is not an
    [OpenApiV1] instance: both required values are absent, and the press
    returns without any error, after asking for a refresh. *)
Lemma validation_skipped_for_other_client :
  missing_fields (button bare_hass other_client_coordinator "charge")
  = ["number.TLX0001_charge_power"; "number.TLX0001_charge_stop_soc"]
  /\ async_press float_of_whole fromisoformat_hms accepting
       (button bare_hass other_client_coordinator "charge") empty_world
     = (Ok tt, {| data := ∅; trace := [EvRequestRefresh] |}).
Proof. split; vm_compute; reflexivity. Qed.

(** The sample charge presses of a TLX and of a MIX device. *)
Lemma charge_writes_by_family_witness :
  vendor_events
    (trace
       (snd
          (_apply_charge_settings float_of_whole fromisoformat_hms accepting
             (button (full_hass "TLX0001") tlx_coordinator "charge")
             empty_world)))
  = [ (write_parameter "TLX0001" MIN_TLX "charge_power"
         (tlx_params 80 0 0 0), None);
      (write_parameter "TLX0001" MIN_TLX "charge_stop_soc"
         (tlx_params 0 95 0 0), None) ]
  /\ vendor_events
       (trace
          (snd
             (_apply_charge_settings float_of_whole fromisoformat_hms
                accepting
                (button (full_hass "MIX0001") mix_coordinator "charge")
                empty_world)))
     = [ (write_time_segment "MIX0001" SPH_MIX "mix_ac_charge_time_period"
            (ChargeSegment
               {| mc_charge_power := 80;
                  mc_charge_stop_soc := 95;
                  mc_mains_enabled := false;
                  mc_start_hour := 1;
                  mc_start_minute := 30;
                  mc_end_hour := 5;
                  mc_end_minute := 0;
                  mc_enabled := true;
                  mc_segment_id := 1 |}), None) ].
Proof.
  split.
  - apply (proj1 (charge_writes_by_family float_of_whole fromisoformat_hms
                    accepting
                    (button (full_hass "TLX0001") tlx_coordinator "charge")
                    empty_world eq_refl) 80 95);
      reflexivity.
  - apply (proj2 (charge_writes_by_family float_of_whole fromisoformat_hms
                    accepting
                    (button (full_hass "MIX0001") mix_coordinator "charge")
                    empty_world eq_refl)
             (mk_time 1 30 0 0) (mk_time 5 0 0 0) true 80 95 0);
      first [reflexivity | vm_compute; discriminate].
Defined.

(** The sample discharge press of a TLX device whose cloud rejects the
    stop-SOC write. *)
Lemma tlx_second_write_failure_keeps_first_witness :
  fst (async_press float_of_whole fromisoformat_hms rejecting_soc
         (button (full_hass "TLX0001") tlx_coordinator "discharge")
         empty_world)
  = Raise
      (HomeAssistantError
         "Error applying discharge settings: error code 10012"
         (Some (GrowattV1ApiError "error code 10012")))
  /\ applied_writes
       (trace
          (snd
             (async_press float_of_whole fromisoformat_hms rejecting_soc
                (button (full_hass "TLX0001") tlx_coordinator "discharge")
                empty_world)))
     = [write_parameter "TLX0001" MIN_TLX "discharge_power"
          (tlx_params 0 0 60 0)].
Proof.
  pose proof (tlx_second_write_failure_keeps_first float_of_whole
                fromisoformat_hms rejecting_soc
                (button (full_hass "TLX0001") tlx_coordinator "discharge")
                empty_world 60 20 (GrowattV1ApiError "error code 10012")
                eq_refl eq_refl eq_refl eq_refl eq_refl eq_refl)
    as (Hr & _ & Ha & _).
  split; [exact Hr | exact Ha].
Defined.

(** The sample charge press of a MIX device whose cloud rejects every
    write. *)
Lemma vendor_error_surfaces_once_witness :
  In (write_time_segment "MIX0001" SPH_MIX "mix_ac_charge_time_period"
        (ChargeSegment
           {| mc_charge_power := 80;
              mc_charge_stop_soc := 95;
              mc_mains_enabled := false;
              mc_start_hour := 1;
              mc_start_minute := 30;
              mc_end_hour := 5;
              mc_end_minute := 0;
              mc_enabled := true;
              mc_segment_id := 1 |}),
      Some (GrowattV1ApiError "error code 10012"))
    (vendor_events
       (trace
          (snd
             (async_press float_of_whole fromisoformat_hms rejecting
                (button (full_hass "MIX0001") mix_coordinator "charge")
                empty_world))))
  /\ fst (async_press float_of_whole fromisoformat_hms rejecting
            (button (full_hass "MIX0001") mix_coordinator "charge")
            empty_world)
     = Raise
         (HomeAssistantError
            "Error applying charge settings: error code 10012"
            (Some (GrowattV1ApiError "error code 10012"))).
Proof.
  match goal with
  | |- ?P /\ _ => assert P as Hin by (vm_compute; left; reflexivity)
  end.
  split; [exact Hin |].
  pose proof (vendor_error_surfaces_once float_of_whole fromisoformat_hms
                rejecting
                (button (full_hass "MIX0001") mix_coordinator "charge")
                empty_world _ _ "error code 10012"
                (eq_sym (app_nil_l _)) Hin) as [H _].
  etransitivity; [exact H |]. vm_compute. reflexivity.
Defined.

(** The sample charge press of a TLX device and the sample discharge
    press of a MIX device, on a cloud that accepts every write. *)
Lemma refresh_only_after_success_witness :
  (let r :=
     async_press float_of_whole fromisoformat_hms accepting
       (button (full_hass "TLX0001") tlx_coordinator "charge") empty_world in
   fst r = Ok tt
   /\ vendor_events (trace (snd r))
      = [ (write_parameter "TLX0001" MIN_TLX "charge_power"
             (tlx_params 80 0 0 0), None);
          (write_parameter "TLX0001" MIN_TLX "charge_stop_soc"
             (tlx_params 0 95 0 0), None) ]
   /\ refresh_count (trace (snd r)) = 1%nat
   /\ last (trace (snd r)) = Some EvRequestRefresh)
  /\ (let r :=
        async_press float_of_whole fromisoformat_hms accepting
          (button (full_hass "MIX0001") mix_coordinator "discharge")
          empty_world in
      fst r = Ok tt
      /\ length (vendor_events (trace (snd r))) = 1%nat
      /\ refresh_count (trace (snd r)) = 1%nat
      /\ last (trace (snd r)) = Some EvRequestRefresh).
Proof.
  split.
  - destruct (proj1 (proj2 (refresh_only_after_success float_of_whole
                              fromisoformat_hms accepting
                              (button (full_hass "TLX0001") tlx_coordinator
                                 "charge")
                              empty_world))
                80 95 eq_refl eq_refl eq_refl eq_refl eq_refl eq_refl)
      as [msg H].
    cbv zeta. rewrite H. repeat split.
  - destruct (proj1 (proj2 (proj2 (refresh_only_after_success float_of_whole
                                     fromisoformat_hms accepting
                                     (button (full_hass "MIX0001")
                                        mix_coordinator "discharge")
                                     empty_world)))
                (mk_time 17 0 0 0) (mk_time 21 45 0 0) false 60 20 0
                eq_refl ltac:(vm_compute; discriminate) eq_refl eq_refl
                eq_refl eq_refl eq_refl ltac:(discriminate) eq_refl)
      as [msg H].
    cbv zeta. rewrite H. repeat split.
Defined.

(** C2 as stated fails where the conditions of the writes are not met:
    the sample charge press of a TLX device issues no call when the
    client is not an [OpenApiV1] instance, and one call only when the
    cloud rejects the first write. *)
Lemma charge_calls_without_conditions :
  device_type other_client_coordinator = "tlx"
  /\ vendor_events
       (trace
          (snd
             (_apply_charge_settings float_of_whole fromisoformat_hms
                accepting
                (button (full_hass "TLX0001") other_client_coordinator
                   "charge")
                empty_world)))
     = []
  /\ vendor_events
       (trace
          (snd
             (_apply_charge_settings float_of_whole fromisoformat_hms
                rejecting
                (button (full_hass "TLX0001") tlx_coordinator "charge")
                empty_world)))
     = [ (write_parameter "TLX0001" MIN_TLX "charge_power"
            (tlx_params 80 0 0 0),
          Some (GrowattV1ApiError "error code 10012")) ].
Proof. repeat split; vm_compute; reflexivity. Qed.

(** ** The registry loop *)

Lemma visit_entity_slot (h : HomeAssistant) (device kind : string)
  (found : Siblings) (entity : RegistryEntry) (s : Slot) :
  slot_value (visit_entity h device kind found entity) s
  = if is_slot device kind s entity
    then states h !! entity_id entity
    else slot_value found s.
Proof.
  unfold visit_entity, is_slot, matched_slot.
  destruct (_ && _); [| reflexivity].
  repeat (destruct (endswith _ _); [destruct s; reflexivity |]).
  reflexivity.
Qed.

Lemma fold_visit_slot (h : HomeAssistant) (device kind : string)
  (l : list RegistryEntry) (found : Siblings) (s : Slot) :
  slot_value (fold_left (visit_entity h device kind) l found) s
  = match List.find (is_slot device kind s) (rev l) with
    | Some x => states h !! entity_id x
    | None => slot_value found s
    end.
Proof.
  induction l as [| x l IH] using rev_ind; [reflexivity |].
  rewrite fold_left_app, rev_app_distr. simpl.
  rewrite visit_entity_slot.
  destruct (is_slot device kind s x); [reflexivity | exact IH].
Qed.

(** X5. The registry loop keeps, for each of the five values, the state
    of the last registry entry that is taken for it, and nothing when no
    entry is. The entry counts even when the host has no state for it:
    an entry without state that comes later hides an earlier one that
    has a state. *)
Theorem find_siblings_last_match (h : HomeAssistant) (device kind : string)
  (s : Slot) :
  slot_value (find_siblings h device kind) s
  = match last_match h device kind s with
    | Some x => states h !! entity_id x
    | None => None
    end.
Proof.
  unfold find_siblings, last_match. rewrite fold_visit_slot.
  destruct (List.find _ _); [reflexivity |]. destruct s; reflexivity.
Qed.

(** ** Platform setup *)

Lemma fold_left_extend {A B} (step : list B -> A -> list B)
  (f : A -> list B) (l : list A) (init : list B) :
  (forall acc x, step acc x = acc ++ f x) ->
  fold_left step l init = init ++ flat_map f l.
Proof.
  intros Hstep. revert init.
  induction l as [| x l IH]; intros init; simpl.
  - symmetry. apply app_nil_r.
  - rewrite IH, Hstep, <- app_assoc. reflexivity.
Qed.

Lemma created_for {E} (f : GrowattCoordinator -> list E)
  (coord : E -> GrowattCoordinator) (q : GrowattCoordinator -> bool)
  (devices : list GrowattCoordinator) (c : GrowattCoordinator) :
  (forall d e, In e (f d) -> coord e = d /\ q d = true) ->
  (forall d, q d = true -> exists e, In e (f d)) ->
  (exists e, In e (flat_map f devices) /\ coord e = c)
  <-> In c devices /\ q c = true.
Proof.
  intros H1 H2. split.
  - intros (e & Hin & Hc). apply in_flat_map in Hin.
    destruct Hin as (d & Hd & He). destruct (H1 d e He) as [Hc' Hq].
    subst. auto.
  - intros [Hin Hq]. destruct (H2 c Hq) as [e He].
    exists e. split; [| apply (H1 c e He)].
    apply in_flat_map. exists c. auto.
Qed.

Lemma created_count {E} (f : GrowattCoordinator -> list E)
  (q : GrowattCoordinator -> bool) (k : nat)
  (devices : list GrowattCoordinator) :
  (forall d, length (f d) = if q d then k else 0%nat) ->
  length (flat_map f devices) = (k * length (List.filter q devices))%nat.
Proof.
  intros Hf. induction devices as [| d l IH]; simpl; [lia |].
  rewrite length_app, IH, Hf. destruct (q d); simpl; lia.
Qed.

Lemma has_schedule_iff (c : GrowattCoordinator) :
  has_schedule c = true
  <-> api_version c = "v1" /\ (device_type c = "mix" \/ device_type c = "tlx").
Proof.
  unfold has_schedule, is_v1.
  rewrite andb_true_iff, orb_true_iff, !String.eqb_eq. reflexivity.
Qed.

Lemma button_setup_flat (h : HomeAssistant) (devices : list GrowattCoordinator) :
  ButtonPlatform.async_setup_entry h devices
  = flat_map
      (fun d =>
         if has_schedule d
         then [ {| hass := h; ButtonPlatform.coordinator := d;
                   _setting_type := "charge" |};
                {| hass := h; ButtonPlatform.coordinator := d;
                   _setting_type := "discharge" |} ]
         else [])
      devices.
Proof.
  unfold ButtonPlatform.async_setup_entry.
  rewrite (fold_left_extend _
             (fun d =>
                if has_schedule d
                then [ {| hass := h; ButtonPlatform.coordinator := d;
                          _setting_type := "charge" |};
                       {| hass := h; ButtonPlatform.coordinator := d;
                          _setting_type := "discharge" |} ]
                else [])); [reflexivity |].
  intros acc d. unfold has_schedule, is_v1. simpl.
  rewrite orb_false_r.
  destruct (String.eqb (api_version d) "v1");
    destruct (String.eqb (device_type d) "mix");
    destruct (String.eqb (device_type d) "tlx");
    simpl; rewrite ?app_nil_r; reflexivity.
Qed.

Lemma time_setup_flat (devices : list GrowattCoordinator) :
  TimePlatform.async_setup_entry devices
  = flat_map
      (fun d =>
         if has_schedule d
         then map (fun k => {| cls := k; TimePlatform.coordinator := d;
                               _segment_id := 1 |})
                [ GrowattChargeStartTimeEntity; GrowattChargeEndTimeEntity;
                  GrowattDischargeStartTimeEntity;
                  GrowattDischargeEndTimeEntity ]
         else [])
      devices.
Proof.
  unfold TimePlatform.async_setup_entry.
  rewrite (fold_left_extend _
             (fun d =>
                if has_schedule d
                then map (fun k => {| cls := k; TimePlatform.coordinator := d;
                                      _segment_id := 1 |})
                       [ GrowattChargeStartTimeEntity;
                         GrowattChargeEndTimeEntity;
                         GrowattDischargeStartTimeEntity;
                         GrowattDischargeEndTimeEntity ]
                else [])); [reflexivity |].
  intros acc d. unfold has_schedule, is_v1.
  destruct (String.eqb (api_version d) "v1");
    destruct (String.eqb (device_type d) "mix");
    destruct (String.eqb (device_type d) "tlx");
    simpl; rewrite ?app_nil_r; reflexivity.
Qed.

Lemma number_setup_flat (devices : list GrowattCoordinator) :
  NumberPlatform.async_setup_entry devices
  = flat_map
      (fun d =>
         if is_v1 d
         then map (fun description =>
                     {| NumberPlatform.coordinator := d;
                        entity_description := description |})
                (if String.eqb (device_type d) "tlx"
                 then MIN_NUMBER_TYPES else MIX_NUMBER_TYPES)
         else [])
      devices.
Proof.
  unfold NumberPlatform.async_setup_entry.
  rewrite (fold_left_extend _
             (fun d =>
                if is_v1 d
                then map (fun description =>
                            {| NumberPlatform.coordinator := d;
                               entity_description := description |})
                       (if String.eqb (device_type d) "tlx"
                        then MIN_NUMBER_TYPES else MIX_NUMBER_TYPES)
                else [])); [reflexivity |].
  intros acc d. unfold is_v1.
  destruct (String.eqb (api_version d) "v1");
    rewrite ?app_nil_r; reflexivity.
Qed.

(** X6. The three setups agree on the devices they serve. A device gets
    its two buttons exactly when it gets its four time entities: when it
    is in the list, uses the V1 API and is of type ["mix"] or ["tlx"];
    the time entities are all for segment 1. The four numbers are
    created for every V1 device, whatever its type, so a V1 device of
    another type has numbers and no button to send them. *)
Theorem setup_platforms_agree (h : HomeAssistant)
  (devices : list GrowattCoordinator) (c : GrowattCoordinator) :
  ((exists b, In b (ButtonPlatform.async_setup_entry h devices)
              /\ ButtonPlatform.coordinator b = c)
   <-> In c devices /\ api_version c = "v1"
       /\ (device_type c = "mix" \/ device_type c = "tlx"))
  /\ ((exists e, In e (TimePlatform.async_setup_entry devices)
                 /\ TimePlatform.coordinator e = c)
      <-> In c devices /\ api_version c = "v1"
          /\ (device_type c = "mix" \/ device_type c = "tlx"))
  /\ ((exists n, In n (NumberPlatform.async_setup_entry devices)
                 /\ NumberPlatform.coordinator n = c)
      <-> In c devices /\ api_version c = "v1")
  /\ (forall e, In e (TimePlatform.async_setup_entry devices) ->
        _segment_id e = 1)
  /\ length (ButtonPlatform.async_setup_entry h devices)
     = (2 * length (List.filter has_schedule devices))%nat
  /\ length (TimePlatform.async_setup_entry devices)
     = (4 * length (List.filter has_schedule devices))%nat
  /\ length (NumberPlatform.async_setup_entry devices)
     = (4 * length (List.filter is_v1 devices))%nat.
Proof.
  rewrite button_setup_flat, time_setup_flat, number_setup_flat.
  split; [split | split; [split | split; [split | split; [| split; [| split]]]]].
  - intros H. rewrite created_for with (q := has_schedule) in H.
    + rewrite has_schedule_iff in H. exact H.
    + intros d e. destruct (has_schedule d); simpl; [| tauto].
      intros [<- | [<- | []]]; auto.
    + intros d ->. eexists. left. reflexivity.
  - intros H. rewrite <- has_schedule_iff in H.
    rewrite created_for with (q := has_schedule).
    + exact H.
    + intros d e. destruct (has_schedule d); simpl; [| tauto].
      intros [<- | [<- | []]]; auto.
    + intros d ->. eexists. left. reflexivity.
  - intros H. rewrite created_for with (q := has_schedule) in H.
    + rewrite has_schedule_iff in H. exact H.
    + intros d e. destruct (has_schedule d); simpl; [| tauto].
      intros [<- | [<- | [<- | [<- | []]]]]; auto.
    + intros d ->. eexists. left. reflexivity.
  - intros H. rewrite <- has_schedule_iff in H.
    rewrite created_for with (q := has_schedule).
    + exact H.
    + intros d e. destruct (has_schedule d); simpl; [| tauto].
      intros [<- | [<- | [<- | [<- | []]]]]; auto.
    + intros d ->. eexists. left. reflexivity.
  - intros H. rewrite created_for with (q := is_v1) in H.
    + unfold is_v1 in H. rewrite String.eqb_eq in H. exact H.
    + intros d e. destruct (is_v1 d); simpl; [| tauto].
      rewrite in_map_iff. intros (x & <- & _). auto.
    + intros d ->.
      destruct (String.eqb (device_type d) "tlx"); eexists; left; reflexivity.
  - intros H. rewrite <- (String.eqb_eq (api_version c)) in H.
    rewrite created_for with (q := is_v1).
    + exact H.
    + intros d e. destruct (is_v1 d); simpl; [| tauto].
      rewrite in_map_iff. intros (x & <- & _). auto.
    + intros d ->.
      destruct (String.eqb (device_type d) "tlx"); eexists; left; reflexivity.
  - intros e Hin. apply in_flat_map in Hin. destruct Hin as (d & _ & He).
    destruct (has_schedule d); simpl in He; [| tauto].
    destruct He as [<- | [<- | [<- | [<- | []]]]]; reflexivity.
  - apply created_count. intros d. destruct (has_schedule d); reflexivity.
  - apply created_count. intros d. destruct (has_schedule d); reflexivity.
  - apply created_count. intros d. destruct (is_v1 d); [| reflexivity].
    destruct (String.eqb (device_type d) "tlx"); reflexivity.
Qed.

(** ** Unique ids against the suffixes of the registry loop *)

Lemma string_length_app (a b : string) :
  String.length (a +:+ b) = (String.length a + String.length b)%nat.
Proof.
  induction a as [| c a IH]; [reflexivity |].
  change (String c a +:+ b) with (String c (a +:+ b)). simpl.
  rewrite IH. reflexivity.
Qed.

Lemma substring_all (s : string) : substring 0 (String.length s) s = s.
Proof. induction s as [| c s IH]; simpl; [| rewrite IH]; reflexivity. Qed.

Lemma prefix_app (a b : string) : String.prefix a (a +:+ b) = true.
Proof.
  induction a as [| c a IH]; [destruct b; reflexivity |].
  change (String c a +:+ b) with (String c (a +:+ b)). simpl.
  destruct (ascii_dec c c); [exact IH | contradiction].
Qed.

Lemma contains_app (a b : string) : contains a (a +:+ b) = true.
Proof.
  pose proof (prefix_app a b) as H. revert H.
  generalize (a +:+ b). intros s H.
  destruct s; cbn [contains]; rewrite H; reflexivity.
Qed.

(** One more character in front. *)
Lemma endswith_cons (c : ascii) (s suffix : string) :
  endswith (String c s) suffix
  = if (String.length suffix <=? String.length s)%nat
    then endswith s suffix
    else (String.length suffix =? S (String.length s))%nat
         && String.eqb (String c s) suffix.
Proof.
  unfold endswith. simpl String.length.
  destruct (Nat.leb_spec (String.length suffix) (String.length s)) as [H | H].
  - replace (String.length suffix <=? S (String.length s))%nat with true
      by (symmetry; apply Nat.leb_le; lia).
    replace (S (String.length s) - String.length suffix)%nat
      with (S (String.length s - String.length suffix)) by lia.
    reflexivity.
  - destruct (Nat.eqb_spec (String.length suffix) (S (String.length s)))
      as [E | E].
    + rewrite E, Nat.leb_refl, Nat.sub_diag. simpl.
      rewrite substring_all. reflexivity.
    + replace (String.length suffix <=? S (String.length s))%nat with false
        by (symmetry; apply Nat.leb_gt; lia).
      reflexivity.
Qed.

Lemma endswith_refl (s : string) : endswith s s = true.
Proof.
  unfold endswith. rewrite Nat.leb_refl, Nat.sub_diag, substring_all.
  apply String.eqb_refl.
Qed.

Lemma endswith_app_self (a b : string) : endswith (a +:+ b) b = true.
Proof.
  induction a as [| c a IH]; [apply endswith_refl |].
  change (String c a +:+ b) with (String c (a +:+ b)).
  rewrite endswith_cons, string_length_app.
  replace (String.length b <=? String.length a + String.length b)%nat
    with true by (symmetry; apply Nat.leb_le; lia).
  exact IH.
Qed.

(** Whether [a +:+ tail] ends with [suffix] is decided by [tail] alone,
    when [suffix] is no longer than [tail] or does not end with it. *)
Lemma endswith_app_tail (a tail suffix : string) :
  (String.length suffix <=? String.length tail)%nat
  || negb (endswith suffix tail) = true ->
  endswith (a +:+ tail) suffix = endswith tail suffix.
Proof.
  intros Hdet. induction a as [| c a IH]; [reflexivity |].
  change (String c a +:+ tail) with (String c (a +:+ tail)).
  rewrite endswith_cons, string_length_app.
  destruct (Nat.leb_spec (String.length suffix)
              (String.length a + String.length tail)) as [H | H];
    [exact IH |].
  assert (endswith tail suffix = false) as ->.
  { unfold endswith.
    replace (String.length suffix <=? String.length tail)%nat with false
      by (symmetry; apply Nat.leb_gt; lia).
    reflexivity. }
  destruct (String.eqb_spec (String c (a +:+ tail)) suffix) as [E | E];
    [| apply andb_false_r].
  exfalso. apply orb_prop in Hdet. destruct Hdet as [Hl | Hn].
  - apply Nat.leb_le in Hl. lia.
  - rewrite <- E in Hn.
    change (String c (a +:+ tail)) with (String c a +:+ tail) in Hn.
    rewrite endswith_app_self in Hn. discriminate Hn.
Qed.

Lemma matched_slot_tail (device kind tail eid : string) :
  tail_decides kind tail = true ->
  matched_slot device kind (registry_entry (device +:+ tail) eid)
  = matched_slot EmptyString kind (registry_entry tail EmptyString).
Proof.
  unfold tail_decides. simpl forallb. rewrite !andb_true_iff.
  intros (H1 & H2 & H3 & H4 & H5 & _).
  unfold matched_slot, registry_entry. simpl platform.
  simpl ButtonPlatform.unique_id.
  rewrite contains_app.
  rewrite !(endswith_app_tail device) by assumption.
  replace (contains EmptyString tail) with true
    by (destruct tail; reflexivity).
  reflexivity.
Qed.

Ltac eval_closed_slots :=
  repeat
    match goal with
    | |- context [matched_slot EmptyString ?k ?e] =>
        let v := eval vm_compute in (matched_slot EmptyString k e) in
        change (matched_slot EmptyString k e) with v
    end.

Ltac last_match_of_created :=
  rewrite fold_visit_slot;
  unfold is_slot, NumberPlatform.unique_id, TimePlatform.unique_id,
    MIN_NUMBER_TYPES, MIX_NUMBER_TYPES, percent_setting;
  cbn [map app rev List.find NumberPlatform.coordinator
       TimePlatform.coordinator entity_description key cls _segment_id];
  rewrite ?matched_slot_tail by (vm_compute; reflexivity);
  eval_closed_slots;
  cbn [slot_eqb slot_value no_siblings entity_id registry_entry];
  reflexivity.

(** X7. The unique ids that the number and time setups give their
    entities are the ones the registry loop of a press looks for. With
    the entities that the two setups create for a V1 device registered
    (under any entity ids), a charge or discharge press finds its power
    and stop-SOC numbers, and on a ["mix"] or ["tlx"] device its start
    and end times; the enabled flag is not among them, it has to come
    from another platform. *)
Theorem created_entities_are_found (c : GrowattCoordinator)
  (eid : string -> string) (sts : gmap string State) (kind : string) :
  api_version c = "v1" ->
  kind = "charge" \/ kind = "discharge" ->
  let dev := device_id c in
  let reg :=
    map (fun n =>
           registry_entry (NumberPlatform.unique_id n)
             (eid (NumberPlatform.unique_id n)))
      (NumberPlatform.async_setup_entry [c])
    ++ map (fun e =>
              registry_entry (TimePlatform.unique_id e)
                (eid (TimePlatform.unique_id e)))
         (TimePlatform.async_setup_entry [c]) in
  let f := find_siblings {| entities := reg; states := sts |} dev kind in
  power_entity f = sts !! eid (dev +:+ "_" +:+ kind +:+ "_power")
  /\ stop_soc_entity f = sts !! eid (dev +:+ "_" +:+ kind +:+ "_stop_soc")
  /\ (device_type c = "mix" \/ device_type c = "tlx" ->
      start_entity f = sts !! eid (dev +:+ "_" +:+ kind +:+ "_start_time_1")
      /\ end_entity f = sts !! eid (dev +:+ "_" +:+ kind +:+ "_end_time_1"))
  /\ enabled_entity f = None.
Proof.
  intros Hv1 Hkind dev reg f. subst f reg dev.
  unfold find_siblings, NumberPlatform.async_setup_entry,
    TimePlatform.async_setup_entry.
  cbn [entities states fold_left]. rewrite Hv1.
  change (String.eqb "v1" "v1") with true. cbv iota.
  match goal with
  | |- power_entity ?F = _ /\ _ =>
      change (slot_value F PowerSlot
              = sts !! eid (device_id c +:+ "_" +:+ kind +:+ "_power")
              /\ slot_value F StopSocSlot
                 = sts !! eid (device_id c +:+ "_" +:+ kind +:+ "_stop_soc")
              /\ (device_type c = "mix" \/ device_type c = "tlx" ->
                  slot_value F StartSlot
                  = sts !! eid (device_id c +:+ "_" +:+ kind
                                +:+ "_start_time_1")
                  /\ slot_value F EndSlot
                     = sts !! eid (device_id c +:+ "_" +:+ kind
                                   +:+ "_end_time_1"))
              /\ slot_value F EnabledSlot = None)
  end.
  destruct (String.eqb_spec (device_type c) "mix") as [Emix | Emix];
    destruct (String.eqb_spec (device_type c) "tlx") as [Etlx | Etlx];
    destruct Hkind as [-> | ->];
    (split; [last_match_of_created |]);
    (split; [last_match_of_created |]);
    (split; [| last_match_of_created]);
    intros Hd;
    try (exfalso; destruct Hd; contradiction);
    (split; last_match_of_created).
Qed.

(** ** More properties on the sample installation *)

(** The sample discharge presses of a TLX and of a MIX device. *)
Lemma discharge_writes_by_family_witness :
  vendor_events
    (trace
       (snd
          (_apply_discharge_settings float_of_whole fromisoformat_hms
             accepting
             (button (full_hass "TLX0001") tlx_coordinator "discharge")
             empty_world)))
  = [ (write_parameter "TLX0001" MIN_TLX "discharge_power"
         (tlx_params 0 0 60 0), None);
      (write_parameter "TLX0001" MIN_TLX "discharge_stop_soc"
         (tlx_params 0 0 0 20), None) ]
  /\ vendor_events
       (trace
          (snd
             (_apply_discharge_settings float_of_whole fromisoformat_hms
                accepting
                (button (full_hass "MIX0001") mix_coordinator "discharge")
                empty_world)))
     = [ (write_time_segment "MIX0001" SPH_MIX
            "mix_ac_discharge_time_period"
            (DischargeSegment
               {| md_discharge_power := 60;
                  md_discharge_stop_soc := 20;
                  md_start_hour := 17;
                  md_start_minute := 0;
                  md_end_hour := 21;
                  md_end_minute := 45;
                  md_enabled := false;
                  md_segment_id := 1 |}), None) ].
Proof.
  split.
  - apply (proj1 (discharge_writes_by_family float_of_whole
                    fromisoformat_hms accepting
                    (button (full_hass "TLX0001") tlx_coordinator "discharge")
                    empty_world eq_refl) 60 20);
      reflexivity.
  - apply (proj2 (discharge_writes_by_family float_of_whole
                    fromisoformat_hms accepting
                    (button (full_hass "MIX0001") mix_coordinator "discharge")
                    empty_world eq_refl)
             (mk_time 17 0 0 0) (mk_time 21 45 0 0) false 60 20);
      first [reflexivity | vm_compute; discriminate].
Defined.

(** The sample charge press of a TLX device whose cloud rejects every
    write. *)
Lemma tlx_first_write_failure_stops_witness :
  vendor_events
    (trace
       (snd
          (async_press float_of_whole fromisoformat_hms rejecting
             (button (full_hass "TLX0001") tlx_coordinator "charge")
             empty_world)))
  = [ (write_parameter "TLX0001" MIN_TLX "charge_power"
         (tlx_params 80 0 0 0),
       Some (GrowattV1ApiError "error code 10012")) ]
  /\ applied_writes
       (trace
          (snd
             (async_press float_of_whole fromisoformat_hms rejecting
                (button (full_hass "TLX0001") tlx_coordinator "charge")
                empty_world)))
     = [].
Proof.
  pose proof (tlx_first_write_failure_stops float_of_whole fromisoformat_hms
                rejecting
                (button (full_hass "TLX0001") tlx_coordinator "charge")
                empty_world 80 95 (GrowattV1ApiError "error code 10012")
                eq_refl eq_refl eq_refl eq_refl eq_refl)
    as (_ & Hv & Ha & _).
  split; [exact Hv | exact Ha].
Defined.

(** The sample charge press of a TLX device whose charge power number is
    unavailable. *)
Lemma press_failure_before_any_call_witness :
  async_press float_of_whole fromisoformat_hms accepting
    (button (unavailable_hass "TLX0001") tlx_coordinator "charge") empty_world
  = (Raise ValueError, empty_world).
Proof.
  assert (fst (async_press float_of_whole fromisoformat_hms accepting
                 (button (unavailable_hass "TLX0001") tlx_coordinator "charge")
                 empty_world) = Raise ValueError) as Hr
      by (vm_compute; reflexivity).
  assert (vendor_events
            (trace
               (snd
                  (async_press float_of_whole fromisoformat_hms accepting
                     (button (unavailable_hass "TLX0001") tlx_coordinator
                        "charge")
                     empty_world)))
          = vendor_events (trace empty_world)) as Hv
      by (vm_compute; reflexivity).
  destruct (press_failure_before_any_call float_of_whole fromisoformat_hms
              accepting
              (button (unavailable_hass "TLX0001") tlx_coordinator "charge")
              empty_world ValueError Hr Hv) as [[Hm _] | (_ & _ & H)].
  - exfalso. apply Hm. vm_compute. reflexivity.
  - exact H.
Defined.


(** The entities that the setups create for the sample TLX device,
    registered under [domain.unique_id] entity ids. *)
Lemma created_entities_are_found_witness :
  api_version tlx_coordinator = "v1"
  /\ power_entity
       (find_siblings
          {| entities :=
               map (fun n =>
                      registry_entry (NumberPlatform.unique_id n)
                        ("number." +:+ NumberPlatform.unique_id n))
                 (NumberPlatform.async_setup_entry [tlx_coordinator])
               ++ map (fun e =>
                         registry_entry (TimePlatform.unique_id e)
                           ("number." +:+ TimePlatform.unique_id e))
                    (TimePlatform.async_setup_entry [tlx_coordinator]);
             states := states_of "TLX0001" |}
          "TLX0001" "charge")
     = Some {| state := "80" |}.
Proof.
  split; [reflexivity |].
  etransitivity.
  - apply (created_entities_are_found tlx_coordinator
             (fun uid => "number." +:+ uid) (states_of "TLX0001") "charge"
             eq_refl (or_introl eq_refl)).
  - vm_compute. reflexivity.
Defined.
